(** * goterm/term: terminal attributes, password prompt and PTY pairs

    A shallow embedding of [term/termios_darwin.go].  Go functions that
    talk to the operating system become computations in a state monad over
    a model of the kernel; a Go run-time panic is an outcome of its own.
    The kernel model records every system call it serves in a trace, so
    that statements about which calls are made, and in which order, can be
    written down. *)

From Stdlib Require Import ZArith List String Strings.Byte Ascii Lia DecimalString.
From stdpp Require Import base gmap strings list.

Open Scope Z_scope.

(** ** Go values *)

(** Go's [error] interface, restricted to the dynamic types that reach this
    package: [errors.New], [syscall.Errno] and [*os.PathError]. *)
Inductive error : Type :=
  | errorString (s : string)
  | Errno (e : Z)
  | PathError (op path : string) (err : error).

(** [*os.File]: a descriptor and the name it was opened under.  A nil
    pointer is [None]. *)
Record file : Type := mkfile { file_fd : Z; file_name : string }.
Definition File : Type := option file.

(** Modelled from the spec: the declaration of [Termios] is not in this
    file.  The spec lists input, output, control and local flag words, the
    control-character table, and input and output speed. *)
Record Termios : Type := mkTermios {
  Iflag : Z;
  Oflag : Z;
  Cflag : Z;
  Lflag : Z;
  Cc : list byte;
  Ispeed : Z;
  Ospeed : Z
}.

(** The zero value of [Termios] ([var t Termios]); the length of the
    control-character table is a parameter of the platform. *)
Definition Termios_zero (nbCc : nat) : Termios :=
  mkTermios 0 0 0 0 (replicate nbCc x00) 0 0.

(** Modelled from the spec: the declaration of [PTY] is not in this file;
    the code uses its two fields [Master] and [Slave], both [*os.File]. *)
Record PTY : Type := mkPTY { Master : File; Slave : File }.

(** A [[]byte] header whose backing array starts at the slice's first
    element: length and capacity.  The array itself lives in the state. *)
Record slice : Type := mkslice { len : nat; cap : nat }.

(** ** Constants of the source *)

Definition TCGETS : Z := 0x5401.
Definition TCSETS : Z := 0x5402.
Definition TIOCGPTN : Z := 0x80045430.
Definition CBAUD : Z := 4111.     (* 0o010017 *)
Definition CBAUDEX : Z := 4096.   (* 0o010000 *)

(** Constants of Go's [syscall] package for darwin used by the source. *)
Definition TIOCPTYGNAME : Z := 0x40807453.
Definition TIOCPTYGRANT : Z := 0x20007454.
Definition TIOCPTYUNLK : Z := 0x20007452.

Definition _IOC_PARAM_SHIFT : Z := 13.
Definition _IOC_PARAM_MASK : Z := Z.shiftl 1 _IOC_PARAM_SHIFT - 1.

Definition _IOC_PARM_LEN (ioctl : Z) : Z :=
  Z.land (Z.shiftr ioctl 16) _IOC_PARAM_MASK.

(** ** The kernel *)

Definition EBADF : Z := 9.
Definition ENOTTY : Z := 25.
Definition ENOENT : Z := 2.
Definition EINTR : Z := 4.

(** The memory a control request points at. *)
Inductive IoArg : Type :=
  | ArgNone
  | ArgTermios (t : Termios)
  | ArgUint (n : Z)
  | ArgBytes (b : list byte).

(** What the kernel keeps for a pseudo-terminal master. *)
Record PtyInfo : Type := mkPtyInfo {
  pty_index : Z;
  pty_name : list byte      (* reply to the name request, as raw bytes *)
}.

(** What the kernel keeps behind a descriptor. *)
Record Node : Type := mkNode {
  n_tio : option Termios;   (* line discipline; [None]: not a terminal *)
  n_pty : option PtyInfo;   (* [None]: not a pseudo-terminal master *)
  n_in : list byte;         (* bytes still to be delivered by read *)
  n_out : list byte         (* bytes written so far *)
}.

Inductive Call : Type :=
  | SysOpen (path : string)
  | SysIoctl (fd cmd : Z)
  | SysRead (fd : Z)
  | SysWrite (fd : Z) (data : list byte)
  | SysClose (fd : Z).

(** A served system call with the error number it returned (0: success). *)
Record Event : Type := mkEvent { ev_call : Call; ev_errno : Z }.

Record World : Type := mkWorld {
  fdtab : gmap Z Node;         (* open descriptors *)
  devs : gmap string Node;     (* device nodes that can be opened, by path *)
  next_fd : Z;                 (* descriptor handed out by the next open *)
  faults : list Z;             (* injected outcome of the coming calls, one
                                  entry per call: nonzero makes the call
                                  fail with that error number and no other
                                  effect; exhausted means no more faults *)
  trace : list Event           (* served calls, oldest first *)
}.

(** The state of a run: the kernel and the backing array of the caller's
    byte slice. *)
Record State : Type := mkState { os : World; mem : list byte }.

Definition set_os (w : World) (s : State) : State := mkState w (mem s).
Definition set_mem (m : list byte) (s : State) : State := mkState (os s) m.

Definition log (c : Call) (e : Z) (w : World) : World :=
  mkWorld (fdtab w) (devs w) (next_fd w) (faults w) (trace w ++ [mkEvent c e]).

Definition pop_fault (w : World) : Z * World :=
  (hd 0 (faults w),
   mkWorld (fdtab w) (devs w) (next_fd w) (tl (faults w)) (trace w)).

Definition set_node (fd : Z) (n : Node) (w : World) : World :=
  mkWorld (<[fd := n]> (fdtab w)) (devs w) (next_fd w) (faults w) (trace w).

Definition drop_node (fd : Z) (w : World) : World :=
  mkWorld (delete fd (fdtab w)) (devs w) (next_fd w) (faults w) (trace w).

(** The low four bytes of a value.  The pty-number request declares a
    four-byte parameter ([_IOC_PARM_LEN TIOCGPTN] is 4), so the kernel
    replaces the low four bytes of the word it is pointed at and leaves
    the rest. *)
Definition low32 (n : Z) : Z := Z.land n 0xFFFFFFFF.

(** The first [n] bytes of the kernel's reply laid over a buffer. *)
Definition overlay (reply buf : list byte) : list byte :=
  take (length buf) reply ++ drop (length reply) buf.

(** What a control request does when no fault is injected: error number,
    the memory behind the pointer afterwards, and the node afterwards.
    The attribute write keeps what it is given as it is and the attribute
    query hands it back; a line discipline that adjusts the attributes it
    is given is not modelled. *)
Definition ioctl_node (cmd : Z) (arg : IoArg) (n : Node) : Z * IoArg * Node :=
  if cmd =? TCGETS then
    match n_tio n, arg with
    | Some k, ArgTermios _ => (0, ArgTermios k, n)
    | _, _ => (ENOTTY, arg, n)
    end
  else if cmd =? TCSETS then
    match n_tio n, arg with
    | Some _, ArgTermios t => (0, arg, mkNode (Some t) (n_pty n) (n_in n) (n_out n))
    | _, _ => (ENOTTY, arg, n)
    end
  else if cmd =? TIOCGPTN then
    match n_pty n, arg with
    | Some p, ArgUint m =>
        (0, ArgUint (Z.lor (Z.ldiff m 0xFFFFFFFF) (low32 (pty_index p))), n)
    | _, _ => (ENOTTY, arg, n)
    end
  else if cmd =? TIOCPTYGNAME then
    match n_pty n, arg with
    | Some p, ArgBytes b => (0, ArgBytes (overlay (pty_name p) b), n)
    | _, _ => (ENOTTY, arg, n)
    end
  else if (cmd =? TIOCPTYGRANT) || (cmd =? TIOCPTYUNLK) then
    match n_pty n with
    | Some _ => (0, arg, n)
    | None => (ENOTTY, arg, n)
    end
  else (ENOTTY, arg, n).

(** [syscall.Syscall(SYS_IOCTL, fd, cmd, ptr)]: the error number and the
    memory behind [ptr] afterwards. *)
Definition sys_ioctl (fd cmd : Z) (arg : IoArg) (w : World) : (Z * IoArg) * World :=
  let '(flt, w1) := pop_fault w in
  if negb (flt =? 0) then ((flt, arg), log (SysIoctl fd cmd) flt w1)
  else match fdtab w1 !! fd with
       | None => ((EBADF, arg), log (SysIoctl fd cmd) EBADF w1)
       | Some n =>
           let '(e, out, n') := ioctl_node cmd arg n in
           ((e, out), log (SysIoctl fd cmd) e (set_node fd n' w1))
       end.

(** [read(fd, buf, 1)]: the error number and the byte delivered, if any.
    An exhausted input is end of file: no error and no byte. *)
Definition sys_read1 (fd : Z) (w : World) : (Z * option byte) * World :=
  let '(flt, w1) := pop_fault w in
  if negb (flt =? 0) then ((flt, None), log (SysRead fd) flt w1)
  else match fdtab w1 !! fd with
       | None => ((EBADF, None), log (SysRead fd) EBADF w1)
       | Some n =>
           match n_in n with
           | [] => ((0, None), log (SysRead fd) 0 w1)
           | c :: rest =>
               ((0, Some c),
                log (SysRead fd) 0
                  (set_node fd (mkNode (n_tio n) (n_pty n) rest (n_out n)) w1))
           end
       end.

(** [write(fd, data)]: the error number. *)
Definition sys_write (fd : Z) (data : list byte) (w : World) : Z * World :=
  let '(flt, w1) := pop_fault w in
  if negb (flt =? 0) then (flt, log (SysWrite fd data) flt w1)
  else match fdtab w1 !! fd with
       | None => (EBADF, log (SysWrite fd data) EBADF w1)
       | Some n =>
           (0, log (SysWrite fd data) 0
                 (set_node fd (mkNode (n_tio n) (n_pty n) (n_in n) (n_out n ++ data)) w1))
       end.

(** [close(fd)]: the descriptor is released whatever the outcome. *)
Definition sys_close (fd : Z) (w : World) : Z * World :=
  let '(flt, w1) := pop_fault w in
  if negb (flt =? 0) then (flt, log (SysClose fd) flt (drop_node fd w1))
  else match fdtab w1 !! fd with
       | None => (EBADF, log (SysClose fd) EBADF w1)
       | Some _ => (0, log (SysClose fd) 0 (drop_node fd w1))
       end.

(** [open(path, O_RDWR)]: the error number and the new descriptor. *)
Definition sys_open (path : string) (w : World) : (Z * Z) * World :=
  let '(flt, w1) := pop_fault w in
  if negb (flt =? 0) then ((flt, -1), log (SysOpen path) flt w1)
  else match devs w1 !! path with
       | None => ((ENOENT, -1), log (SysOpen path) ENOENT w1)
       | Some n =>
           let fd := next_fd w1 in
           ((0, fd),
            log (SysOpen path) 0
              (mkWorld (<[fd := n]> (fdtab w1)) (devs w1) (fd + 1) (faults w1) (trace w1)))
       end.

(** ** Computations *)

Inductive Outcome (A : Type) : Type :=
  | Done (a : A)
  | Panic.
Arguments Done {A} a.
Arguments Panic {A}.

(** A Go computation: it ends normally with a value or panics, and leaves
    a state behind either way. *)
Definition Go (A : Type) : Type := State -> Outcome A * State.

Definition ret {A : Type} (a : A) : Go A := fun s => (Done a, s).

Definition bind {A B : Type} (m : Go A) (k : A -> Go B) : Go B :=
  fun s => match m s with
           | (Done a, s1) => k a s1
           | (Panic, s1) => (Panic, s1)
           end.

Definition panic {A : Type} : Go A := fun s => (Panic, s).

(** A call into the kernel. *)
Definition syscall {A : Type} (k : World -> A * World) : Go A :=
  fun s => let '(a, w) := k (os s) in (Done a, set_os w s).

(** [defer d] followed by [body]: the deferred call runs when the body is
    left, normally or by a panic, and its results are dropped. *)
Definition defer {A B : Type} (d : Go B) (body : Go A) : Go A :=
  fun s => match body s with
           | (r, s1) => match d s1 with
                        | (Done _, s2) => (r, s2)
                        | (Panic, s2) => (Panic, s2)
                        end
           end.

Declare Scope go_scope.
Delimit Scope go_scope with go.
Notation "'let*' x ':=' m 'in' k" := (bind m (fun x => k))
  (at level 10, x pattern, m at level 100, k at level 200) : go_scope.
Notation "m ;;; k" := (bind m (fun _ => k))
  (at level 100, right associativity) : go_scope.
Open Scope go_scope.

(** ** Slices over the backing array *)

(** [s[:high]]: a run-time panic when [high] exceeds the capacity. *)
Definition reslice (s : slice) (high : nat) : Go slice :=
  if (high <=? cap s)%nat then ret (mkslice high (cap s)) else panic.

(** [s[i] = v]: a run-time panic when [i] is not below the length. *)
Definition store (s : slice) (i : nat) (v : byte) : Go unit :=
  if (i <? len s)%nat then fun st => (Done tt, set_mem (<[i := v]> (mem st)) st)
  else panic.

(** The bytes a slice shows. *)
Definition bytes_of (s : slice) (st : State) : list byte := take (len s) (mem st).

(** ** The standard library's [os.File] and [strconv] *)

(** [os.ErrInvalid], [io.EOF] and [os.ErrClosed]. *)
Definition ErrInvalid : error := errorString "invalid argument".
Definition EOF : error := errorString "EOF".
Definition ErrClosed : error := errorString "file already closed".

(** [f.Fd()]: the invalid descriptor for a nil receiver. *)
Definition File_Fd (f : File) : Z :=
  match f with
  | None => 2 ^ 64 - 1
  | Some h => file_fd h
  end.

(** The library's [ignoringEINTR]: a call that was interrupted is made
    again.  [fuel] bounds the number of repeats. *)
Fixpoint ignoringEINTR {A : Type} (fuel : nat) (call : World -> (Z * A) * World)
  : Go (Z * A) :=
  let* (e, a) := syscall call in
  if e =? EINTR then
    match fuel with
    | O => ret (e, a)
    | S n => ignoringEINTR n call
    end
  else ret (e, a).

(** A call under [ignoringEINTR].  In the kernel of this file a call is
    interrupted only when the schedule of injected outcomes says so, and
    each call uses up one entry: the length of the schedule is fuel
    enough. *)
Definition retry {A : Type} (call : World -> (Z * A) * World) : Go (Z * A) :=
  fun s => ignoringEINTR (length (faults (os s))) call s.

(** [f.Read(b)] for a one-byte [b]: the byte stored in [b[0]], if any, and
    the error. *)
Definition File_Read1 (f : File) : Go (option byte * option error) :=
  match f with
  | None => ret (None, Some ErrInvalid)
  | Some h =>
      let* (e, c) := retry (sys_read1 (file_fd h)) in
      if negb (e =? 0) then ret (None, Some (PathError "read" (file_name h) (Errno e)))
      else match c with
           | None => ret (None, Some EOF)
           | Some x => ret (Some x, None)
           end
  end.

(** [f.Write(data)]: the error. *)
Definition File_Write (f : File) (data : list byte) : Go (option error) :=
  match f with
  | None => ret (Some ErrInvalid)
  | Some h =>
      let* (e, _) :=
        retry (fun w => let '(e, w') := sys_write (file_fd h) data w in ((e, tt), w')) in
      if negb (e =? 0) then ret (Some (PathError "write" (file_name h) (Errno e)))
      else ret None
  end.

(** [f.Close()] on a non-nil handle.  A handle that was closed before
    makes no kernel call and reports [ErrClosed].  The handles of this
    file are the ones [os.OpenFile] returns, one for each descriptor, and
    a descriptor leaves the table only when it is closed and is not handed
    out again: the handle was closed before exactly when its descriptor is
    no longer in the table.  A close is not repeated when interrupted. *)
Definition File_Close (h : file) : Go (option error) :=
  fun s =>
    match fdtab (os s) !! file_fd h with
    | None => ret (Some (PathError "close" (file_name h) ErrClosed)) s
    | Some _ =>
        (let* e := syscall (sys_close (file_fd h)) in
         if negb (e =? 0) then ret (Some (PathError "close" (file_name h) (Errno e)))
         else ret None) s
    end.

(** [os.OpenFile(name, os.O_RDWR, 0)]. *)
Definition os_OpenFile (name : string) : Go (File * option error) :=
  let* (e, fd) := retry (sys_open name) in
  if negb (e =? 0) then ret (None, Some (PathError "open" name (Errno e)))
  else ret (Some (mkfile fd name), None).

(** [strconv.Itoa]. *)
Definition Itoa (n : Z) : string := NilZero.string_of_int (Z.to_int n).

(** The conversion [int(n)] of a 64-bit [uint]. *)
Definition int_of_uint (n : Z) : Z :=
  let m := n mod 2 ^ 64 in
  if m <? 2 ^ 63 then m else m - 2 ^ 64.

(** ** The source *)

(** [func ioctl(fd, cmd, ptr uintptr) error], with the memory behind [ptr]
    afterwards. *)
Definition ioctl (fd cmd : Z) (arg : IoArg) : Go (option error * IoArg) :=
  let* (e, out) := syscall (sys_ioctl fd cmd arg) in
  if negb (e =? 0) then ret (Some (Errno e), out)
  else ret (None, out).

(** Assignment to [t.Lflag]. *)
Definition with_Lflag (v : Z) (t : Termios) : Termios :=
  mkTermios (Iflag t) (Oflag t) (Cflag t) v (Cc t) (Ispeed t) (Ospeed t).

(** Assignment to [t.Ispeed] and [t.Ospeed]. *)
Definition with_speeds (i o : Z) (t : Termios) : Termios :=
  mkTermios (Iflag t) (Oflag t) (Cflag t) (Lflag t) (Cc t) i o.

(** [func (t *Termios) Set(file *os.File) error] *)
Definition Termios_Set (t : Termios) (file : File) : Go (option error) :=
  let fd := File_Fd file in
  let* (errno, _) := syscall (sys_ioctl fd TCSETS (ArgTermios t)) in
  if negb (errno =? 0) then ret (Some (Errno errno))
  else ret None.

(** [func clearbuf(b []byte)] *)
Fixpoint clearbuf_from (n i : nat) (b : slice) : Go unit :=
  match n with
  | O => ret tt
  | S n' => store b i x00 ;;; clearbuf_from n' (S i) b
  end.

Definition clearbuf (b : slice) : Go unit := clearbuf_from (len b) 0 b.

(** [b[0] == '\n' || b[0] == '\r'] *)
Definition is_terminator (c : byte) : bool :=
  Byte.eqb c x0a || Byte.eqb c x0d.

Section Platform.

(** Declared elsewhere in the package: the length of the control-character
    table and the echo bit of the local flags. *)
Variable nbCc : nat.
Variable ECHO : Z.

(** [func Attr(file *os.File) (Termios, error)] *)
Definition Attr (file : File) : Go (Termios * option error) :=
  let t := Termios_zero nbCc in
  let fd := File_Fd file in
  let* (errno, out) := syscall (sys_ioctl fd TCGETS (ArgTermios t)) in
  let t := match out with ArgTermios k => k | _ => t end in
  if negb (errno =? 0) then ret (t, Some (Errno errno))
  else
    let t := with_speeds (Z.land (Ispeed t) (Z.lor CBAUD CBAUDEX))
                         (Z.land (Ospeed t) (Z.lor CBAUD CBAUDEX)) t in
    ret (t, None).

(** [func Isatty(file *os.File) bool] *)
Definition Isatty (file : File) : Go bool :=
  let* (_, err) := Attr file in
  ret (match err with None => true | Some _ => false end).

(** The loop of [GetPass]: [n] is the number of iterations left,
    [len(pbuf) - i], and [b0] is [b[0]]. *)
Fixpoint GetPass_loop (n : nat) (f : File) (pbuf : slice) (i : nat) (b0 : byte)
  : Go (option slice * option error) :=
  match n with
  | O =>
      let* s := reslice pbuf (i + 1) in
      clearbuf s ;;;
      ret (None, Some (errorString "ran out of bufferspace"))
  | S n' =>
      let* (c, err) := File_Read1 f in
      let b0 := match c with Some x => x | None => b0 end in
      let* b0 := match err with
                 | Some _ =>
                     let* s := reslice pbuf (i + 1) in
                     clearbuf s ;;;
                     ret x00
                 | None => ret b0
                 end in
      if is_terminator b0 then
        let* s := reslice pbuf i in
        ret (Some s, None)
      else
        store pbuf i b0 ;;;
        GetPass_loop n' f pbuf (i + 1) x00
  end.

(** [func GetPass(prompt string, f *os.File, pbuf []byte) ([]byte, error)] *)
Definition GetPass (prompt : string) (f : File) (pbuf : slice)
  : Go (option slice * option error) :=
  let* (t, err) := Attr f in
  match err with
  | Some e => ret (None, Some e)
  | None =>
      defer (Termios_Set t f)
        (let noecho := t in
         let noecho := with_Lflag (Z.ldiff (Lflag noecho) ECHO) noecho in
         let* err := Termios_Set noecho f in
         match err with
         | Some e => ret (None, Some e)
         | None =>
             let b0 := x00 in
             let i := O in
             let* err := File_Write f (list_byte_of_string prompt) in
             match err with
             | Some e => ret (None, Some e)
             | None => GetPass_loop (len pbuf - i) f pbuf i b0
             end
         end)
  end.

End Platform.

(** [err != nil] *)
Definition is_Some_b {A : Type} (o : option A) : bool :=
  match o with Some _ => true | None => false end.

(** ** Pseudo-terminal pairs *)

(** The bytes before the first NUL: the [for i, c := range n] loop of
    [ptsname]. *)
Fixpoint until_nul (n : list byte) : option (list byte) :=
  match n with
  | [] => None
  | c :: rest =>
      if Byte.eqb c x00 then Some []
      else match until_nul rest with
           | Some pre => Some (c :: pre)
           | None => None
           end
  end.

(** [func ptsname(f *os.File) (string, error)] *)
Definition ptsname (f : File) : Go (string * option error) :=
  let n := replicate (Z.to_nat (_IOC_PARM_LEN TIOCPTYGNAME)) x00 in
  let* (err, out) := ioctl (File_Fd f) TIOCPTYGNAME (ArgBytes n) in
  let n := match out with ArgBytes b => b | _ => n end in
  match err with
  | Some e => ret (EmptyString, Some e)
  | None =>
      match until_nul n with
      | Some pre => ret (string_of_list_byte pre, None)
      | None => ret (EmptyString, Some (errorString "TIOCPTYGNAME string not NUL-terminated"))
      end
  end.

(** [func grantpt(f *os.File) error] *)
Definition grantpt (f : File) : Go (option error) :=
  let* (err, _) := ioctl (File_Fd f) TIOCPTYGRANT ArgNone in
  ret err.

(** [func unlockpt(f *os.File) error] *)
Definition unlockpt (f : File) : Go (option error) :=
  let* (err, _) := ioctl (File_Fd f) TIOCPTYUNLK ArgNone in
  ret err.

(** [func OpenPTY()], returning the pair pointer and the error. *)
Definition OpenPTY : Go (option PTY * option error) :=
  let* (p, err) := os_OpenFile "/dev/ptmx" in
  match err with
  | Some e => ret (None, Some e)
  | None =>
      let* (sname, err) := ptsname p in
      match err with
      | Some e => ret (None, Some e)
      | None =>
          let* err := grantpt p in
          match err with
          | Some e => ret (None, Some e)
          | None =>
              let* err := unlockpt p in
              match err with
              | Some e => ret (None, Some e)
              | None =>
                  let* (t, err) := os_OpenFile sname in
                  match err with
                  | Some e => ret (None, Some e)
                  | None => ret (Some (mkPTY p t), None)
                  end
              end
          end
      end
  end.

(** [func (p *PTY) PTSNumber() (uint, error)]: reading [p.Master] through
    a nil [p] is a run-time panic. *)
Definition PTSNumber (p : option PTY) : Go (Z * option error) :=
  let ptyno := 0 in
  match p with
  | None => panic
  | Some q =>
      let* (errno, out) :=
        syscall (sys_ioctl (File_Fd (Master q)) TIOCGPTN (ArgUint ptyno)) in
      let ptyno := match out with ArgUint n => n | _ => ptyno end in
      if negb (errno =? 0) then ret (0, Some (Errno errno))
      else ret (ptyno, None)
  end.

(** [func (p *PTY) PTSName() (string, error)] *)
Definition PTSName (p : option PTY) : Go (string * option error) :=
  let* (n, err) := PTSNumber p in
  match err with
  | Some e => ret (EmptyString, Some e)
  | None => ret ("/dev/pts/" +:+ Itoa (int_of_uint n), None)
  end.

Section Messages.

(** The text of an error number, a table of Go's [syscall] package. *)
Variable errno_text : Z -> string.

(** The [Error()] method. *)
Fixpoint Error (e : error) : string :=
  match e with
  | errorString s => s
  | Errno n => errno_text n
  | PathError op path err => op +:+ " " +:+ path +:+ ": " +:+ Error err
  end.

(** [func (p *PTY) Close() error] *)
Definition Close (p : option PTY) : Go (option error) :=
  let slaveErr := Some (errorString "Slave FD nil") in
  match p with
  | None => ret (Some (errorString "no PTY"))
  | Some q =>
      let* slaveErr := match Slave q with
                       | Some h => File_Close h
                       | None => ret slaveErr
                       end in
      let masterErr := Some (errorString "Master FD nil") in
      let* masterErr := match Master q with
                        | Some h => File_Close h
                        | None => ret masterErr
                        end in
      if is_Some_b slaveErr || is_Some_b masterErr then
        let errs := [] in
        let errs := match slaveErr with
                    | Some e => errs ++ ["Slave: " +:+ Error e]
                    | None => errs
                    end in
        let errs := match masterErr with
                    | Some e => errs ++ ["Master: " +:+ Error e]
                    | None => errs
                    end in
        ret (Some (errorString (String.concat " " errs)))
      else ret None
  end.

End Messages.

(** ** Request codes *)

(** From <sys/ioccom.h>, as the source lists them. *)
Definition _IOC_VOID : Z := 0x20000000.
Definition _IOC_OUT : Z := 0x40000000.
Definition _IOC_IN : Z := 0x80000000.
Definition _IOC_IN_OUT : Z := Z.lor _IOC_OUT _IOC_IN.
Definition _IOC_DIRMASK : Z := Z.lor (Z.lor _IOC_VOID _IOC_OUT) _IOC_IN.

(** A value as a 64-bit [uintptr]. *)
Definition uintptr (n : Z) : Z := n mod 2 ^ 64.

(** [func _IOC(inout uintptr, group byte, ioctl_num uintptr, param_len uintptr) uintptr] *)
Definition _IOC (inout group ioctl_num param_len : Z) : Z :=
  Z.lor (Z.lor (Z.lor inout
                      (uintptr (Z.shiftl (Z.land param_len _IOC_PARAM_MASK) 16)))
               (uintptr (Z.shiftl group 8)))
        ioctl_num.

(** [func _IO(group byte, ioctl_num uintptr) uintptr] *)
Definition _IO (group ioctl_num : Z) : Z := _IOC _IOC_VOID group ioctl_num 0.

(** * Vocabulary of the statements *)

(** The events a computation added to the trace. *)
Definition new_events (s s' : State) : list Event :=
  drop (length (trace (os s))) (trace (os s')).

(** Descriptor [fd] is a terminal with attributes [k] and pending input
    [inp], and no fault is scheduled. *)
Definition tty_ready (fd : Z) (k : Termios) (inp : list byte) (w : World) : Prop :=
  faults w = [] /\
  exists n, fdtab w !! fd = Some n /\ n_tio n = Some k /\ n_in n = inp.

(** The echo bit of the attributes the kernel holds for a descriptor. *)
Definition echo_attr (ECHO : Z) (fd : Z) (w : World) : option Z :=
  match fdtab w !! fd with
  | Some n => match n_tio n with
              | Some k => Some (Z.land (Lflag k) ECHO)
              | None => None
              end
  | None => None
  end.

(** No byte of [pw] ends a line. *)
Definition no_terminator (pw : list byte) : Prop :=
  Forall (fun c => is_terminator c = false) pw.

(** The attributes as [Attr] hands them out. *)
Definition masked (k : Termios) : Termios :=
  with_speeds (Z.land (Ispeed k) (Z.lor CBAUD CBAUDEX))
              (Z.land (Ospeed k) (Z.lor CBAUD CBAUDEX)) k.

(** The array [m] with [xs] written over it from index [i]. *)
Definition splice (i : nat) (xs m : list byte) : list byte :=
  take i m ++ xs ++ drop (i + length xs) m.

(** What closing one side yields: the result of [Close] on the handle, or
    the side's own error when the handle is nil. *)
Definition close_side (nil_msg : string) (f : File) : Go (option error) :=
  match f with
  | Some h => File_Close h
  | None => ret (Some (errorString nil_msg))
  end.

(** The slave name the kernel reports for the master on [fd]: the bytes
    of its reply, as far as they fit the request's buffer, up to the first
    NUL. *)
Definition kernel_pts_name (fd : Z) (w : World) : option string :=
  match fdtab w !! fd with
  | Some n =>
      match n_pty n with
      | Some info =>
          match until_nul (overlay (pty_name info)
                             (replicate (Z.to_nat (_IOC_PARM_LEN TIOCPTYGNAME)) x00)) with
          | Some pre => Some (string_of_list_byte pre)
          | None => None
          end
      | None => None
      end
  | None => None
  end.

(** The [error] the source makes of an error number: nil for 0. *)
Definition err_of (e : Z) : option error :=
  if e =? 0 then None else Some (Errno e).

(** Descriptor [fd] is a pseudo-terminal master with kernel record
    [info], and no fault is scheduled. *)
Definition pty_ready (fd : Z) (info : PtyInfo) (w : World) : Prop :=
  faults w = [] /\
  exists n, fdtab w !! fd = Some n /\ n_pty n = Some info.

(** No byte of [l] is NUL. *)
Definition no_nul (l : list byte) : Prop :=
  Forall (fun c => Byte.eqb c x00 = false) l.

(** Descriptor [fd] is not a terminal: it is not open, or what is open
    there has no line discipline. *)
Definition not_a_tty (fd : Z) (w : World) : Prop :=
  match fdtab w !! fd with
  | Some n => n_tio n = None
  | None => True
  end.

(** The kernel's reply to the name request spells [pre]: [pre] has no
    NUL, fits the request's buffer with room for a NUL, and is the whole
    reply or is followed in it by a NUL. *)
Definition reply_names (reply pre : list byte) : Prop :=
  no_nul pre /\
  (length pre < Z.to_nat (_IOC_PARM_LEN TIOCPTYGNAME))%nat /\
  (reply = pre \/ exists r, reply = pre ++ x00 :: r).

(** The world after [k] calls [c] in a row were interrupted: [k] entries
    of the schedule are used up and the trace has the [k] calls. *)
Definition interrupted (k : nat) (c : Call) (w : World) : World :=
  mkWorld (fdtab w) (devs w) (next_fd w) (drop k (faults w))
          (trace w ++ replicate k (mkEvent c EINTR)).

(** The master on [fd] names its slave [sname]: the kernel's reply to the
    name request spells it. *)
Definition master_names (fd : Z) (w : World) (sname : string) : Prop :=
  exists n info pre,
    fdtab w !! fd = Some n /\ n_pty n = Some info /\
    reply_names (pty_name info) pre /\ sname = string_of_list_byte pre.

(** The reply of the master on [fd] to the name request fills the buffer
    of the request without a NUL. *)
Definition master_unterminated (fd : Z) (w : World) : Prop :=
  exists n info,
    fdtab w !! fd = Some n /\ n_pty n = Some info /\
    (Z.to_nat (_IOC_PARM_LEN TIOCPTYGNAME) <= length (pty_name info))%nat /\
    no_nul (take (Z.to_nat (_IOC_PARM_LEN TIOCPTYGNAME)) (pty_name info)).

(** The bits of a request code that hold the parameter length. *)
Definition parm_len_bits : Z := Z.shiftl _IOC_PARAM_MASK 16.

(** ** Sample worlds *)

(** Attributes with the echo bit set and speeds that carry bits outside
    the baud-rate mask. *)
Definition sample_tio : Termios :=
  mkTermios 1 2 3 0x8b (replicate 20 x00) 0x1100f 0x2000d.

(** A terminal on descriptor 3 with pending input [inp]. *)
Definition sample_tty (inp : list byte) (flt : list Z) : World :=
  mkWorld {[ 3 := mkNode (Some sample_tio) None inp [] ]} ∅ 4 flt [].

(** The handle of the sample terminal. *)
Definition sample_file : File := Some (mkfile 3 "/dev/tty").

(** A run of [GetPass] on the sample terminal with a buffer of [n] bytes
    of value 1 and [extra] spare bytes of capacity behind them. *)
Definition sample_pass (inp : list byte) (flt : list Z) (n extra : nat)
  : Outcome (option slice * option error) * State :=
  GetPass 20 8 "Password: " sample_file (mkslice n (n + extra))
    (mkState (sample_tty inp flt) (replicate n x01 ++ replicate extra x01)).

(** A call the kernel served without error. *)
Definition ev_ok (c : Call) : Event := mkEvent c 0.

(** A pty master on descriptor 5 with kernel index 7. *)
Definition sample_master : World :=
  mkWorld {[ 5 := mkNode (Some sample_tio)
                    (Some (mkPtyInfo 7 (list_byte_of_string "/dev/ttys007"))) [] [] ]}
          ∅ 6 [] [].

(** A pair on the sample master; its slave descriptor is not open. *)
Definition sample_pair : PTY :=
  mkPTY (Some (mkfile 5 "/dev/ptmx")) (Some (mkfile 6 "/dev/ttys007")).

(** A plain file on descriptor 3: open, but not a terminal. *)
Definition sample_plain (flt : list Z) : World :=
  mkWorld {[ 3 := mkNode None None (list_byte_of_string "data") [] ]} ∅ 4 flt [].

(** The node behind "/dev/ptmx" in the sample: a master with kernel
    index 7 whose slave is "/dev/ttys007". *)
Definition sample_ptmx_node : Node :=
  mkNode (Some sample_tio)
         (Some (mkPtyInfo 7 (list_byte_of_string "/dev/ttys007"))) [] [].

(** A kernel where a pair can be allocated: both device nodes exist and
    nothing is open yet. *)
Definition sample_devs (flt : list Z) : World :=
  mkWorld ∅ {[ "/dev/ptmx"%string := sample_ptmx_node;
               "/dev/ttys007"%string := mkNode (Some sample_tio) None [] [] ]}
          3 flt [].

(** A master on descriptor 5 whose reply to the name request is 130
    bytes without a NUL. *)
Definition sample_long_master : World :=
  mkWorld {[ 5 := mkNode None (Some (mkPtyInfo 7 (replicate 130 "a"%byte))) [] [] ]}
          ∅ 6 [] [].

(** The sample master together with its slave open on descriptor 6. *)
Definition sample_both_open : World :=
  mkWorld {[ 5 := sample_ptmx_node; 6 := mkNode (Some sample_tio) None [] [] ]}
          ∅ 7 [] [].

(** * Properties *)

(** ** A terminal that answers *)

Lemma new_events_app (s s' : State) (evs : list Event) :
  trace (os s') = trace (os s) ++ evs -> new_events s s' = evs.
Proof.
  intros H. unfold new_events. rewrite H. apply drop_app_length.
Qed.

Lemma tcgets_ready fd k inp a w :
  tty_ready fd k inp w ->
  exists w', sys_ioctl fd TCGETS (ArgTermios a) w = ((0, ArgTermios k), w') /\
             tty_ready fd k inp w' /\
             trace w' = trace w ++ [mkEvent (SysIoctl fd TCGETS) 0].
Proof.
  intros [Hf (n & Hn & Hk & Hi)].
  destruct w as [tab dv nfd fl tr]; simpl in *; subst fl.
  unfold sys_ioctl, pop_fault; simpl. rewrite Hn.
  unfold ioctl_node. change (TCGETS =? TCGETS) with true. simpl. rewrite Hk.
  eexists; split; [reflexivity|]. split; [|reflexivity].
  split; [reflexivity|]. exists n. simpl. rewrite lookup_insert_eq. auto.
Qed.

Lemma tcsets_ready fd k inp t w :
  tty_ready fd k inp w ->
  exists w', sys_ioctl fd TCSETS (ArgTermios t) w = ((0, ArgTermios t), w') /\
             tty_ready fd t inp w' /\
             trace w' = trace w ++ [mkEvent (SysIoctl fd TCSETS) 0].
Proof.
  intros [Hf (n & Hn & Hk & Hi)].
  destruct w as [tab dv nfd fl tr]; simpl in *; subst fl.
  unfold sys_ioctl, pop_fault; simpl. rewrite Hn.
  unfold ioctl_node. change (TCSETS =? TCGETS) with false.
  change (TCSETS =? TCSETS) with true. simpl. rewrite Hk.
  eexists; split; [reflexivity|]. split; [|reflexivity].
  split; [reflexivity|]. eexists. simpl. rewrite lookup_insert_eq.
  split; [reflexivity|]. simpl. auto.
Qed.

Lemma write_ready fd k inp data w :
  tty_ready fd k inp w ->
  exists w', sys_write fd data w = (0, w') /\
             tty_ready fd k inp w' /\
             trace w' = trace w ++ [mkEvent (SysWrite fd data) 0].
Proof.
  intros [Hf (n & Hn & Hk & Hi)].
  destruct w as [tab dv nfd fl tr]; simpl in *; subst fl.
  unfold sys_write, pop_fault; simpl. rewrite Hn.
  eexists; split; [reflexivity|]. split; [|reflexivity].
  split; [reflexivity|]. eexists. simpl. rewrite lookup_insert_eq.
  split; [reflexivity|]. simpl. auto.
Qed.

Lemma read_ready fd k c inp w :
  tty_ready fd k (c :: inp) w ->
  exists w', sys_read1 fd w = ((0, Some c), w') /\
             tty_ready fd k inp w' /\
             trace w' = trace w ++ [mkEvent (SysRead fd) 0].
Proof.
  intros [Hf (n & Hn & Hk & Hi)].
  destruct w as [tab dv nfd fl tr]; simpl in *; subst fl.
  unfold sys_read1, pop_fault; simpl. rewrite Hn, Hi.
  eexists; split; [reflexivity|]. split; [|reflexivity].
  split; [reflexivity|]. eexists. simpl. rewrite lookup_insert_eq.
  split; [reflexivity|]. simpl. auto.
Qed.

(** ** Running computations *)

Lemma bind_done {A B : Type} (m : Go A) (k : A -> Go B) (s s1 : State) (a : A) :
  m s = (Done a, s1) -> bind m k s = k a s1.
Proof. intros H. unfold bind. rewrite H. reflexivity. Qed.

Lemma bind_panic {A B : Type} (m : Go A) (k : A -> Go B) (s s1 : State) :
  m s = (Panic, s1) -> bind m k s = (Panic, s1).
Proof. intros H. unfold bind. rewrite H. reflexivity. Qed.

Lemma syscall_run {A : Type} (k : World -> A * World) (s : State) (a : A) (w : World) :
  k (os s) = (a, w) -> syscall k s = (Done a, set_os w s).
Proof. intros H. unfold syscall. rewrite H. reflexivity. Qed.

(** A call that is not interrupted is made once. *)
Lemma ignoringEINTR_once {A : Type} (fuel : nat) (call : World -> (Z * A) * World)
    (s : State) (e : Z) (a : A) (w' : World) :
  call (os s) = ((e, a), w') -> e <> EINTR ->
  ignoringEINTR fuel call s = (Done (e, a), set_os w' s).
Proof.
  intros H He.
  destruct fuel; cbn [ignoringEINTR];
    rewrite (bind_done _ _ _ _ _ (syscall_run _ _ _ _ H)); cbn beta iota;
    destruct (Z.eqb_spec e EINTR); try contradiction; reflexivity.
Qed.

Lemma retry_once {A : Type} (call : World -> (Z * A) * World)
    (s : State) (e : Z) (a : A) (w' : World) :
  call (os s) = ((e, a), w') -> e <> EINTR ->
  retry call s = (Done (e, a), set_os w' s).
Proof. intros H He. unfold retry. apply ignoringEINTR_once; assumption. Qed.

Lemma ignoringEINTR_mem {A : Type} (call : World -> (Z * A) * World) (fuel : nat) :
  forall (s s1 : State) r, ignoringEINTR fuel call s = (r, s1) -> mem s1 = mem s.
Proof.
  induction fuel as [|n IH]; intros s s1 r; cbn [ignoringEINTR];
    unfold bind, syscall; destruct (call (os s)) as [[e a] w];
    destruct (e =? EINTR).
  - intros H; inversion H; reflexivity.
  - intros H; inversion H; reflexivity.
  - intros H. apply IH in H. exact H.
  - intros H; inversion H; reflexivity.
Qed.

Lemma retry_mem {A : Type} (call : World -> (Z * A) * World) (s s1 : State) r :
  retry call s = (r, s1) -> mem s1 = mem s.
Proof. unfold retry. apply ignoringEINTR_mem. Qed.

Lemma interrupted_0 (c : Call) (w : World) : interrupted 0 c w = w.
Proof.
  destruct w. unfold interrupted. simpl. rewrite app_nil_r. reflexivity.
Qed.

Lemma interrupted_S (k : nat) (c : Call) (w : World) :
  interrupted k c (interrupted 1 c w) = interrupted (S k) c w.
Proof.
  unfold interrupted. simpl. f_equal.
  - rewrite drop_drop. reflexivity.
  - rewrite <- app_assoc. reflexivity.
Qed.

(** Every interrupted call uses up an entry of the schedule, so the fuel
    [retry] gives is never used up: the call is repeated until it is not
    interrupted. *)
Lemma ignoringEINTR_run {A : Type} (c : Call) (call : World -> (Z * A) * World) :
  (forall w a w', call w = ((EINTR, a), w') -> faults w <> [] /\ w' = interrupted 1 c w) ->
  forall (fuel : nat) (s : State),
  (length (faults (os s)) <= fuel)%nat ->
  exists k e a w',
    call (interrupted k c (os s)) = ((e, a), w') /\
    e <> EINTR /\
    ignoringEINTR fuel call s = (Done (e, a), set_os w' s).
Proof.
  intros Hint. induction fuel as [|n IH]; intros s Hlen.
  - destruct (call (os s)) as [[e a] w'] eqn:Hc.
    destruct (Z.eq_dec e EINTR) as [->|He].
    + destruct (Hint _ _ _ Hc) as [Hne _].
      destruct (faults (os s)); [contradiction | simpl in Hlen; lia].
    + exists 0%nat, e, a, w'. rewrite interrupted_0.
      split; [exact Hc|]. split; [exact He|]. apply ignoringEINTR_once; assumption.
  - destruct (call (os s)) as [[e a] w'] eqn:Hc.
    destruct (Z.eq_dec e EINTR) as [->|He].
    + destruct (Hint _ _ _ Hc) as [Hne ->].
      destruct (IH (set_os (interrupted 1 c (os s)) s)) as (k & e & a' & w' & Hk & He & Hr).
      { simpl. rewrite length_drop. destruct (faults (os s)); [contradiction|].
        simpl in *. lia. }
      simpl os in Hk. rewrite interrupted_S in Hk.
      exists (S k), e, a', w'. split; [exact Hk|]. split; [exact He|].
      cbn [ignoringEINTR]. rewrite (bind_done _ _ _ _ _ (syscall_run _ _ _ _ Hc)).
      cbn beta iota. change (EINTR =? EINTR) with true. cbn iota.
      rewrite Hr. reflexivity.
    + exists 0%nat, e, a, w'. rewrite interrupted_0.
      split; [exact Hc|]. split; [exact He|]. apply ignoringEINTR_once; assumption.
Qed.

(** ** The backing array *)

Lemma splice_nil (i : nat) (m : list byte) : splice i [] m = m.
Proof.
  unfold splice. simpl. rewrite Nat.add_0_r. apply take_drop.
Qed.

Lemma splice_insert (i : nat) (c : byte) (xs m : list byte) :
  (i < length m)%nat ->
  splice (S i) xs (<[i := c]> m) = splice i (c :: xs) m.
Proof.
  intros Hi. unfold splice.
  rewrite drop_insert_lt by lia.
  rewrite (insert_take_drop m i c Hi).
  rewrite take_app_ge by (rewrite length_take; lia).
  rewrite length_take, Nat.min_l by lia.
  replace (S i - i)%nat with 1%nat by lia. simpl. rewrite take_0.
  rewrite <- app_assoc. simpl.
  replace (S (i + length xs)) with (i + S (length xs))%nat by lia.
  reflexivity.
Qed.

Lemma store_run (b : slice) (i : nat) (v : byte) (s : State) :
  (i < len b)%nat -> store b i v s = (Done tt, set_mem (<[i := v]> (mem s)) s).
Proof.
  intros H. unfold store.
  destruct (Nat.ltb_spec i (len b)); [reflexivity | lia].
Qed.

Lemma clearbuf_from_run (n : nat) : forall (i : nat) (b : slice) (s : State),
  (i + n <= len b)%nat -> (len b <= length (mem s))%nat ->
  clearbuf_from n i b s = (Done tt, set_mem (splice i (replicate n x00) (mem s)) s).
Proof.
  induction n as [|n IH]; intros i b s Hi Hm.
  - simpl. rewrite splice_nil. destruct s; reflexivity.
  - cbn [clearbuf_from].
    rewrite (bind_done _ _ _ _ _ (store_run b i x00 s ltac:(lia))).
    rewrite IH by (simpl; rewrite ?length_insert; lia).
    simpl. rewrite splice_insert by lia. reflexivity.
Qed.

(** [clearbuf] zeroes the bytes the slice shows and nothing else. *)
Lemma clearbuf_run (b : slice) (s : State) :
  (len b <= length (mem s))%nat ->
  clearbuf b s = (Done tt, set_mem (replicate (len b) x00 ++ drop (len b) (mem s)) s).
Proof.
  intros H. unfold clearbuf. rewrite clearbuf_from_run by lia.
  unfold splice. rewrite take_0, length_replicate. reflexivity.
Qed.

(** ** The prompt reader on a terminal that answers *)

Lemma File_Read1_ready fd name k c inp s :
  tty_ready fd k (c :: inp) (os s) ->
  exists s', File_Read1 (Some (mkfile fd name)) s = (Done (Some c, None), s') /\
             tty_ready fd k inp (os s') /\ mem s' = mem s /\
             trace (os s') = trace (os s) ++ [mkEvent (SysRead fd) 0].
Proof.
  intros H. destruct (read_ready _ _ _ _ _ H) as (w' & Hr & Hw & Ht).
  exists (set_os w' s). split; [|auto].
  unfold File_Read1. simpl.
  rewrite (bind_done _ _ _ _ _ (retry_once _ _ _ _ _ Hr ltac:(discriminate))).
  reflexivity.
Qed.

Lemma File_Write_ready fd name k inp data s :
  tty_ready fd k inp (os s) ->
  exists s', File_Write (Some (mkfile fd name)) data s = (Done None, s') /\
             tty_ready fd k inp (os s') /\ mem s' = mem s /\
             trace (os s') = trace (os s) ++ [mkEvent (SysWrite fd data) 0].
Proof.
  intros H. destruct (write_ready _ _ _ data _ H) as (w' & Hr & Hw & Ht).
  exists (set_os w' s). split; [|auto].
  unfold File_Write. simpl.
  rewrite (bind_done _ _ _ (set_os w' s) (0, tt)); [reflexivity|].
  apply retry_once; [rewrite Hr; reflexivity | discriminate].
Qed.

Lemma Termios_Set_ready fd name k inp t s :
  tty_ready fd k inp (os s) ->
  exists s', Termios_Set t (Some (mkfile fd name)) s = (Done None, s') /\
             tty_ready fd t inp (os s') /\ mem s' = mem s /\
             trace (os s') = trace (os s) ++ [mkEvent (SysIoctl fd TCSETS) 0].
Proof.
  intros H. destruct (tcsets_ready _ _ _ t _ H) as (w' & Hr & Hw & Ht).
  exists (set_os w' s). split; [|auto].
  unfold Termios_Set. simpl.
  rewrite (bind_done _ _ _ _ _ (syscall_run _ _ _ _ Hr)). reflexivity.
Qed.

Lemma Attr_ready nbCc fd name k inp s :
  tty_ready fd k inp (os s) ->
  exists s', Attr nbCc (Some (mkfile fd name)) s = (Done (masked k, None), s') /\
             tty_ready fd k inp (os s') /\ mem s' = mem s /\
             trace (os s') = trace (os s) ++ [mkEvent (SysIoctl fd TCGETS) 0].
Proof.
  intros H.
  destruct (tcgets_ready _ _ _ (Termios_zero nbCc) _ H) as (w' & Hr & Hw & Ht).
  exists (set_os w' s). split; [|auto].
  unfold Attr. simpl.
  rewrite (bind_done _ _ _ _ _ (syscall_run _ _ _ _ Hr)). reflexivity.
Qed.

(** The loop stores the bytes that come before a terminator, one per
    iteration, and goes on with what is left. *)
Lemma GetPass_loop_stores (pw : list byte) :
  forall (n i : nat) (s : State) fd name k rest pbuf,
  no_terminator pw ->
  (length pw <= n)%nat -> (i + length pw <= len pbuf)%nat ->
  (len pbuf <= length (mem s))%nat ->
  tty_ready fd k (pw ++ rest) (os s) ->
  exists s',
    GetPass_loop n (Some (mkfile fd name)) pbuf i x00 s =
      GetPass_loop (n - length pw) (Some (mkfile fd name)) pbuf (i + length pw) x00 s' /\
    tty_ready fd k rest (os s') /\
    mem s' = splice i pw (mem s) /\
    trace (os s') = trace (os s) ++ replicate (length pw) (mkEvent (SysRead fd) 0).
Proof.
  induction pw as [|c pw IH]; intros n i s fd name k rest pbuf Hnt Hn Hi Hm Hr.
  - exists s. simpl. rewrite Nat.sub_0_r, Nat.add_0_r, splice_nil, app_nil_r. auto.
  - simpl in Hn, Hi. destruct n as [|n]; [lia|].
    inversion Hnt as [|? ? Hc Hnt']; subst.
    destruct (File_Read1_ready fd name k c (pw ++ rest) s Hr) as (s1 & Hrd & Hr1 & Hm1 & Ht1).
    assert (Hst : store pbuf i c s1 = (Done tt, set_mem (<[i := c]> (mem s1)) s1))
      by (apply store_run; lia).
    assert (Hm' : (len pbuf <= length (mem (set_mem (<[i := c]> (mem s1)) s1)))%nat)
      by (simpl; rewrite length_insert, Hm1; lia).
    destruct (IH n (i + 1)%nat (set_mem (<[i := c]> (mem s1)) s1) fd name k rest pbuf
                Hnt' ltac:(lia) ltac:(lia) Hm' Hr1)
      as (s2 & Hl & Hr2 & Hm2 & Ht2).
    exists s2. split; [|split; [auto|split]].
    + cbn [GetPass_loop]. rewrite (bind_done _ _ _ _ _ Hrd).
      cbn beta iota. unfold ret at 1. unfold bind at 1. rewrite Hc.
      rewrite (bind_done _ _ _ _ _ Hst). rewrite Hl. simpl.
      replace (i + 1 + length pw)%nat with (i + S (length pw))%nat by lia.
      reflexivity.
    + rewrite Hm2. simpl. rewrite Hm1.
      replace (i + 1)%nat with (S i) by lia. apply splice_insert. lia.
    + rewrite Ht2. simpl. rewrite Ht1, <- app_assoc. reflexivity.
Qed.

Lemma reslice_run (b : slice) (high : nat) (s : State) :
  (high <= cap b)%nat -> reslice b high s = (Done (mkslice high (cap b)), s).
Proof.
  intros H. unfold reslice.
  destruct (Nat.leb_spec high (cap b)); [reflexivity | lia].
Qed.

Lemma reslice_panics (b : slice) (high : nat) (s : State) :
  (cap b < high)%nat -> reslice b high s = (Panic, s).
Proof.
  intros H. unfold reslice.
  destruct (Nat.leb_spec high (cap b)); [lia | reflexivity].
Qed.

(** An iteration that reads a terminator returns the bytes before it. *)
Lemma GetPass_loop_terminator (n i : nat) (s : State) fd name k term rest pbuf :
  is_terminator term = true ->
  (i <= cap pbuf)%nat ->
  tty_ready fd k (term :: rest) (os s) ->
  exists s',
    GetPass_loop (S n) (Some (mkfile fd name)) pbuf i x00 s =
      (Done (Some (mkslice i (cap pbuf)), None), s') /\
    tty_ready fd k rest (os s') /\
    mem s' = mem s /\
    trace (os s') = trace (os s) ++ [mkEvent (SysRead fd) 0].
Proof.
  intros Ht Hi Hr.
  destruct (File_Read1_ready fd name k term rest s Hr) as (s1 & Hrd & Hr1 & Hm1 & Ht1).
  exists s1. split; [|auto].
  cbn [GetPass_loop]. rewrite (bind_done _ _ _ _ _ Hrd).
  cbn beta iota. unfold ret at 1. unfold bind at 1. rewrite Ht.
  rewrite (bind_done _ _ _ _ _ (reslice_run pbuf i s1 Hi)). reflexivity.
Qed.

Lemma echo_attr_ready ECHO fd k inp w :
  tty_ready fd k inp w -> echo_attr ECHO fd w = Some (Z.land (Lflag k) ECHO).
Proof.
  intros [_ (n & Hn & Hk & _)]. unfold echo_attr. rewrite Hn, Hk. reflexivity.
Qed.

(** A line that fits: [GetPass] returns the bytes before the terminator,
    leaves the rest of the array as it was, and the terminal ends up with
    the attributes [Attr] captured. *)
Lemma GetPass_reads_line nbCc ECHO prompt fd name k pw term rest vis spare w :
  tty_ready fd k (pw ++ term :: rest) w ->
  no_terminator pw ->
  is_terminator term = true ->
  (length pw < length vis)%nat ->
  exists s',
    GetPass nbCc ECHO prompt (Some (mkfile fd name))
      (mkslice (length vis) (length (vis ++ spare))) (mkState w (vis ++ spare)) =
      (Done (Some (mkslice (length pw) (length (vis ++ spare))), None), s') /\
    tty_ready fd (masked k) rest (os s') /\
    mem s' = pw ++ drop (length pw) (vis ++ spare).
Proof.
  intros Hr Hnt Ht Hlen.
  set (pbuf := mkslice (length vis) (length (vis ++ spare))).
  set (f := Some (mkfile fd name)).
  set (s := mkState w (vis ++ spare)).
  destruct (Attr_ready nbCc fd name k _ s Hr) as (s1 & Ha & Hr1 & Hm1 & _).
  set (noecho := with_Lflag (Z.ldiff (Lflag (masked k)) ECHO) (masked k)).
  destruct (Termios_Set_ready fd name _ _ noecho s1 Hr1) as (s2 & Hs & Hr2 & Hm2 & _).
  destruct (File_Write_ready fd name _ _ (list_byte_of_string prompt) s2 Hr2)
    as (s3 & Hw & Hr3 & Hm3 & _).
  assert (Hmem3 : mem s3 = vis ++ spare) by (rewrite Hm3, Hm2, Hm1; reflexivity).
  destruct (GetPass_loop_stores pw (length vis) 0 s3 fd name noecho (term :: rest) pbuf)
    as (s4 & Hl & Hr4 & Hm4 & _); auto.
  { lia. } { simpl. lia. } { rewrite Hmem3, length_app. simpl. lia. }
  destruct (length vis - length pw)%nat as [|n] eqn:En; [lia|].
  destruct (GetPass_loop_terminator n (0 + length pw) s4 fd name noecho term rest pbuf)
    as (s5 & Hl5 & Hr5 & Hm5 & _); auto.
  { simpl. rewrite length_app. lia. }
  destruct (Termios_Set_ready fd name _ _ (masked k) s5 Hr5) as (s6 & Hs6 & Hr6 & Hm6 & _).
  exists s6. split; [|split; [exact Hr6|]].
  - unfold GetPass. rewrite (bind_done _ _ _ _ _ Ha). cbn beta iota.
    unfold defer. fold noecho f.
    rewrite (bind_done _ _ _ _ _ Hs). cbn beta iota.
    rewrite (bind_done _ _ _ _ _ Hw). cbn beta iota.
    replace (len pbuf - 0)%nat with (length vis) by (simpl; lia).
    fold pbuf. unfold f. rewrite Hl, Hl5, Hs6. reflexivity.
  - rewrite Hm6, Hm5, Hm4, Hmem3. unfold splice. reflexivity.
Qed.

(** C3: for input bytes "hunter2" followed by a line terminator (\n or \r)
    and a buffer of at least 8 bytes, [GetPass] on a terminal that answers
    returns exactly the bytes "hunter2", and the echo attribute of the
    device after the call equals its value before the call. *)
Theorem GetPass_hunter2 nbCc ECHO prompt fd name k term rest vis spare w :
  tty_ready fd k (list_byte_of_string "hunter2" ++ term :: rest) w ->
  is_terminator term = true ->
  (8 <= length vis)%nat ->
  exists out s',
    GetPass nbCc ECHO prompt (Some (mkfile fd name))
      (mkslice (length vis) (length (vis ++ spare))) (mkState w (vis ++ spare)) =
      (Done (Some out, None), s') /\
    bytes_of out s' = list_byte_of_string "hunter2" /\
    echo_attr ECHO fd (os s') = echo_attr ECHO fd w /\
    echo_attr ECHO fd w = Some (Z.land (Lflag k) ECHO).
Proof.
  intros Hr Ht Hlen.
  assert (Hnt : no_terminator (list_byte_of_string "hunter2"))
    by (repeat constructor).
  assert (Hfit : (length (list_byte_of_string "hunter2") < length vis)%nat)
    by (change (length (list_byte_of_string "hunter2")) with 7%nat; lia).
  destruct (GetPass_reads_line nbCc ECHO prompt fd name k
              (list_byte_of_string "hunter2") term rest vis spare w Hr Hnt Ht Hfit)
    as (s' & Hg & Hr' & Hm).
  eexists; exists s'. split; [exact Hg|]. split; [|split].
  - unfold bytes_of. rewrite Hm. simpl. reflexivity.
  - rewrite (echo_attr_ready ECHO _ _ _ _ Hr'), (echo_attr_ready ECHO _ _ _ _ Hr).
    reflexivity.
  - apply (echo_attr_ready ECHO _ _ _ _ Hr).
Qed.

Lemma GetPass_hunter2_witness :
  exists out s',
    GetPass 20 8 "Password: " (Some (mkfile 3 "/dev/tty"))
      (mkslice (length (replicate 8 x01)) (length (replicate 8 x01 ++ [])))
      (mkState (sample_tty (list_byte_of_string "hunter2" ++ x0a :: []) [])
               (replicate 8 x01 ++ [])) =
      (Done (Some out, None), s') /\
    bytes_of out s' = list_byte_of_string "hunter2" /\
    echo_attr 8 3 (os s') =
      echo_attr 8 3 (sample_tty (list_byte_of_string "hunter2" ++ x0a :: []) []) /\
    echo_attr 8 3 (sample_tty (list_byte_of_string "hunter2" ++ x0a :: []) []) =
      Some (Z.land (Lflag sample_tio) 8).
Proof.
  apply (GetPass_hunter2 20 8 "Password: " 3 "/dev/tty" sample_tio x0a []
           (replicate 8 x01) []).
  - split; [reflexivity|]. eexists. split; [vm_compute; reflexivity|].
    split; reflexivity.
  - reflexivity.
  - simpl. lia.
Defined.

Lemma defer_bind_done {A B C : Type} (d : Go C) (m : Go A) (k : A -> Go B)
    (s s1 : State) (a : A) :
  m s = (Done a, s1) -> defer d (bind m k) s = defer d (k a) s1.
Proof. intros H. unfold defer. rewrite (bind_done _ _ _ _ _ H). reflexivity. Qed.

(** Input that fills the buffer without a terminator: [GetPass] reaches
    the statements after its loop with [i = len(pbuf)], the restoring call
    still pending. *)
Lemma GetPass_fills nbCc ECHO prompt fd name k pw rest vis spare w :
  tty_ready fd k (pw ++ rest) w ->
  no_terminator pw ->
  length pw = length vis ->
  exists s4 k',
    GetPass nbCc ECHO prompt (Some (mkfile fd name))
      (mkslice (length vis) (length (vis ++ spare))) (mkState w (vis ++ spare)) =
      defer (Termios_Set (masked k) (Some (mkfile fd name)))
        (GetPass_loop 0 (Some (mkfile fd name))
           (mkslice (length vis) (length (vis ++ spare))) (length vis) x00) s4 /\
    tty_ready fd k' rest (os s4) /\
    mem s4 = pw ++ spare.
Proof.
  intros Hr Hnt Hlen.
  set (pbuf := mkslice (length vis) (length (vis ++ spare))).
  set (s := mkState w (vis ++ spare)).
  destruct (Attr_ready nbCc fd name k _ s Hr) as (s1 & Ha & Hr1 & Hm1 & _).
  set (noecho := with_Lflag (Z.ldiff (Lflag (masked k)) ECHO) (masked k)).
  destruct (Termios_Set_ready fd name _ _ noecho s1 Hr1) as (s2 & Hs & Hr2 & Hm2 & _).
  destruct (File_Write_ready fd name _ _ (list_byte_of_string prompt) s2 Hr2)
    as (s3 & Hw & Hr3 & Hm3 & _).
  assert (Hmem3 : mem s3 = vis ++ spare) by (rewrite Hm3, Hm2, Hm1; reflexivity).
  assert (H1 : (length pw <= length vis)%nat) by lia.
  assert (H2 : (0 + length pw <= len pbuf)%nat) by (simpl; lia).
  assert (H3 : (len pbuf <= length (mem s3))%nat)
    by (rewrite Hmem3, length_app; simpl; lia).
  destruct (GetPass_loop_stores pw (length vis) 0 s3 fd name noecho rest pbuf
              Hnt H1 H2 H3 Hr3) as (s4 & Hl & Hr4 & Hm4 & _).
  exists s4, noecho. split; [|split; [exact Hr4|]].
  - unfold GetPass. rewrite (bind_done _ _ _ _ _ Ha). cbn beta iota.
    fold noecho.
    rewrite (defer_bind_done _ _ _ _ _ _ Hs). cbn beta iota.
    rewrite (defer_bind_done _ _ _ _ _ _ Hw). cbn beta iota.
    rewrite Nat.sub_0_r. change (len pbuf) with (length vis).
    unfold defer. rewrite Hl, Hlen, Nat.sub_diag. reflexivity.
  - rewrite Hm4, Hmem3. unfold splice. simpl. rewrite Hlen, drop_app_length.
    reflexivity.
Qed.

(** With capacity to spare behind the length, exhaustion is reported as an
    error and the bytes of the buffer, with the one behind them, are
    zero. *)
Lemma GetPass_exhausted_spare nbCc ECHO prompt fd name k pw rest vis c spare w :
  tty_ready fd k (pw ++ rest) w ->
  no_terminator pw ->
  length pw = length vis ->
  exists s',
    GetPass nbCc ECHO prompt (Some (mkfile fd name))
      (mkslice (length vis) (length (vis ++ c :: spare)))
      (mkState w (vis ++ c :: spare)) =
      (Done (None, Some (errorString "ran out of bufferspace")), s') /\
    mem s' = replicate (length vis + 1) x00 ++ spare.
Proof.
  intros Hr Hnt Hlen.
  destruct (GetPass_fills nbCc ECHO prompt fd name k pw rest vis (c :: spare) w Hr Hnt Hlen)
    as (s4 & k' & Hg & Hr4 & Hm4).
  set (pbuf := mkslice (length vis) (length (vis ++ c :: spare))) in *.
  assert (Hcap : (length vis + 1 <= cap pbuf)%nat)
    by (simpl; rewrite length_app; simpl; lia).
  set (s5 := set_mem (replicate (length vis + 1) x00 ++ drop (length vis + 1) (mem s4)) s4).
  assert (Hloop : GetPass_loop 0 (Some (mkfile fd name)) pbuf (length vis) x00 s4 =
                  (Done (None, Some (errorString "ran out of bufferspace")), s5)).
  { cbn [GetPass_loop].
    rewrite (bind_done _ _ _ _ _ (reslice_run pbuf _ s4 Hcap)).
    rewrite (bind_done _ _ _ s5 tt); [reflexivity|].
    apply clearbuf_run. simpl. rewrite Hm4, !length_app. simpl. lia. }
  destruct (Termios_Set_ready fd name k' rest (masked k) s5 Hr4)
    as (s6 & Hs6 & _ & Hm6 & _).
  exists s6. split.
  - rewrite Hg. unfold defer. rewrite Hloop, Hs6. reflexivity.
  - rewrite Hm6. unfold s5. simpl. rewrite Hm4. f_equal.
    rewrite drop_app_ge by lia.
    replace (length vis + 1 - length pw)%nat with 1%nat by lia. reflexivity.
Qed.

(** C2 (what the code does instead): when the buffer has no capacity
    beyond its length, as [make([]byte, n)] gives it, and the input fills
    it without a line terminator, [GetPass] does not return an error: the
    slice expression [pbuf[:i+1]] after the loop is out of range and the
    call panics. *)
Theorem GetPass_exhausted_panics nbCc ECHO prompt fd name k pw rest vis w :
  tty_ready fd k (pw ++ rest) w ->
  no_terminator pw ->
  length pw = length vis ->
  exists s',
    GetPass nbCc ECHO prompt (Some (mkfile fd name))
      (mkslice (length vis) (length vis)) (mkState w vis) = (Panic, s').
Proof.
  intros Hr Hnt Hlen.
  destruct (GetPass_fills nbCc ECHO prompt fd name k pw rest vis [] w Hr Hnt Hlen)
    as (s4 & k' & Hg & Hr4 & Hm4).
  rewrite app_nil_r in Hg.
  destruct (Termios_Set_ready fd name k' rest (masked k) s4 Hr4)
    as (s5 & Hs5 & _).
  exists s5. rewrite Hg. unfold defer. cbn [GetPass_loop].
  rewrite (bind_panic _ _ s4 s4) by (apply reslice_panics; simpl; lia).
  rewrite Hs5. reflexivity.
Qed.

Lemma GetPass_exhausted_panics_witness :
  exists s',
    GetPass 20 8 "Password: " (Some (mkfile 3 "/dev/tty"))
      (mkslice (length (replicate 4 x01)) (length (replicate 4 x01)))
      (mkState (sample_tty (list_byte_of_string "abcd" ++ list_byte_of_string "ef") [])
               (replicate 4 x01)) = (Panic, s').
Proof.
  apply (GetPass_exhausted_panics 20 8 "Password: " 3 "/dev/tty" sample_tio
           (list_byte_of_string "abcd") (list_byte_of_string "ef") (replicate 4 x01)).
  - split; [reflexivity|]. eexists. split; [vm_compute; reflexivity|].
    split; reflexivity.
  - repeat constructor.
  - reflexivity.
Defined.

(** C1 (what the code does instead): a read error in the middle of the
    input zeroes the bytes stored so far and the failed slot, but the call
    does not return: it goes on reading, stores what it reads behind the
    zeroed bytes, and returns them with a nil error.  Here the third read
    fails; the input is "abcd" and a newline. *)
Theorem GetPass_read_error_goes_on :
  let r := sample_pass (list_byte_of_string "abcd" ++ [x0a]) [0; 0; 0; 0; 0; 5] 8 0 in
  fst r = Done (Some (mkslice 5 8), None) /\
  mem (snd r) = [x00; x00; x00; "c"%byte; "d"%byte; x01; x01; x01] /\
  trace (os (snd r)) =
    [ev_ok (SysIoctl 3 TCGETS); ev_ok (SysIoctl 3 TCSETS);
     ev_ok (SysWrite 3 (list_byte_of_string "Password: "));
     ev_ok (SysRead 3); ev_ok (SysRead 3); mkEvent (SysRead 3) 5;
     ev_ok (SysRead 3); ev_ok (SysRead 3); ev_ok (SysRead 3);
     ev_ok (SysIoctl 3 TCSETS)].
Proof.
  vm_compute. repeat split; reflexivity.
Qed.

(** End of input before a terminator: every further read fails with EOF,
    the loop runs to the end of the buffer all the same, and what the
    caller sees is the exhaustion error, or the panic when the buffer has
    no spare capacity, not the read error. *)
Example GetPass_eof_spare :
  let r := sample_pass (list_byte_of_string "ab") [] 4 1 in
  fst r = Done (None, Some (errorString "ran out of bufferspace")) /\
  mem (snd r) = replicate 5 x00.
Proof.
  vm_compute. split; reflexivity.
Qed.

Example GetPass_eof_panics :
  fst (sample_pass (list_byte_of_string "ab") [] 4 0) = Panic.
Proof.
  vm_compute. reflexivity.
Qed.

Lemma Termios_Set_total (t : Termios) (f : File) (s : State) :
  exists e, Termios_Set t f s = (Done e, snd (Termios_Set t f s)).
Proof.
  unfold Termios_Set, bind, syscall.
  destruct (sys_ioctl (File_Fd f) TCSETS (ArgTermios t) (os s)) as [[e out] w].
  destruct (negb (e =? 0)); eexists; reflexivity.
Qed.

Lemma defer_Set {A : Type} (t : Termios) (f : File) (body : Go A) (s s1 : State)
    (r : Outcome A) :
  body s = (r, s1) ->
  defer (Termios_Set t f) body s = (r, snd (Termios_Set t f s1)).
Proof.
  intros H. unfold defer. rewrite H.
  destruct (Termios_Set_total t f s1) as [e He]. rewrite He. reflexivity.
Qed.

(** C4, the claim as stated fails: the restoring call scheduled by
    [defer] fails in the kernel (error number 13) and [GetPass] returns
    the password with a nil error; the terminal is left with echo off. *)
Lemma GetPass_restore_failure_dropped :
  let r := sample_pass (list_byte_of_string "ab" ++ [x0a]) [0; 0; 0; 0; 0; 0; 13] 8 0 in
  fst r = Done (Some (mkslice 2 8), None) /\
  last (trace (os (snd r))) = Some (mkEvent (SysIoctl 3 TCSETS) 13) /\
  echo_attr 8 3 (sample_tty (list_byte_of_string "ab" ++ [x0a]) [0; 0; 0; 0; 0; 0; 13]) =
    Some 8 /\
  echo_attr 8 3 (os (snd r)) = Some 0.
Proof.
  vm_compute. repeat split; reflexivity.
Qed.

(** C4, amended: inside [GetPass] a failure of the attribute query, of the
    call that switches echo off, or of the prompt write is returned to the
    caller as that call's error.  Once the attribute query has succeeded,
    the restoring call runs on every way out, and its own result is
    dropped: the call returns what the statements before it produced. *)
Theorem GetPass_surfaced_errors nbCc ECHO prompt f pbuf s :
  (forall t e s1,
     Attr nbCc f s = (Done (t, Some e), s1) ->
     GetPass nbCc ECHO prompt f pbuf s = (Done (None, Some e), s1)) /\
  (forall t s1,
     Attr nbCc f s = (Done (t, None), s1) ->
     let noecho := with_Lflag (Z.ldiff (Lflag t) ECHO) t in
     (forall e s2,
        Termios_Set noecho f s1 = (Done (Some e), s2) ->
        GetPass nbCc ECHO prompt f pbuf s =
          (Done (None, Some e), snd (Termios_Set t f s2))) /\
     (forall e s2 s3,
        Termios_Set noecho f s1 = (Done None, s2) ->
        File_Write f (list_byte_of_string prompt) s2 = (Done (Some e), s3) ->
        GetPass nbCc ECHO prompt f pbuf s =
          (Done (None, Some e), snd (Termios_Set t f s3))) /\
     (forall r s2 s3 s4,
        Termios_Set noecho f s1 = (Done None, s2) ->
        File_Write f (list_byte_of_string prompt) s2 = (Done None, s3) ->
        GetPass_loop (len pbuf) f pbuf 0 x00 s3 = (r, s4) ->
        GetPass nbCc ECHO prompt f pbuf s = (r, snd (Termios_Set t f s4)))).
Proof.
  split.
  - intros t e s1 Ha. unfold GetPass. rewrite (bind_done _ _ _ _ _ Ha). reflexivity.
  - intros t s1 Ha noecho. repeat split.
    + intros e s2 Hs. unfold GetPass. rewrite (bind_done _ _ _ _ _ Ha).
      cbn beta iota. apply defer_Set. fold noecho.
      rewrite (bind_done _ _ _ _ _ Hs). reflexivity.
    + intros e s2 s3 Hs Hw. unfold GetPass. rewrite (bind_done _ _ _ _ _ Ha).
      cbn beta iota. apply defer_Set. fold noecho.
      rewrite (bind_done _ _ _ _ _ Hs). cbn beta iota.
      rewrite (bind_done _ _ _ _ _ Hw). reflexivity.
    + intros r s2 s3 s4 Hs Hw Hl. unfold GetPass. rewrite (bind_done _ _ _ _ _ Ha).
      cbn beta iota. apply defer_Set. fold noecho.
      rewrite (bind_done _ _ _ _ _ Hs). cbn beta iota.
      rewrite (bind_done _ _ _ _ _ Hw). cbn beta iota.
      rewrite Nat.sub_0_r. exact Hl.
Qed.

Lemma GetPass_surfaced_errors_witness :
  fst (sample_pass [] [0; 13] 8 0) = Done (None, Some (Errno 13)).
Proof.
  unfold sample_pass.
  destruct (GetPass_surfaced_errors 20 8 "Password: " sample_file (mkslice 8 (8 + 0))
              (mkState (sample_tty [] [0; 13]) (replicate 8 x01 ++ replicate 0 x01)))
    as [_ H].
  edestruct H as [H1 _]; [vm_compute; reflexivity|].
  erewrite H1; [reflexivity | vm_compute; reflexivity].
Defined.

(** ** The attribute query *)

(** What the kernel answers to the attribute request: either an error,
    with the memory untouched, or the attributes it holds. *)
Lemma tcgets_cases fd a w e out w' :
  sys_ioctl fd TCGETS (ArgTermios a) w = ((e, out), w') ->
  (e <> 0 /\ out = ArgTermios a) \/
  (e = 0 /\ exists n k, fdtab w !! fd = Some n /\ n_tio n = Some k /\ out = ArgTermios k).
Proof.
  unfold sys_ioctl, pop_fault. simpl.
  destruct (Z.eqb_spec (hd 0 (faults w)) 0) as [Hz|Hnz]; simpl.
  - destruct (fdtab w !! fd) as [n|] eqn:Hn.
    + unfold ioctl_node. change (TCGETS =? TCGETS) with true. cbn iota.
      destruct (n_tio n) as [k|] eqn:Hk; intros H; inversion H; subst.
      * right. split; [reflexivity|]. exists n, k. auto.
      * left. split; [discriminate | reflexivity].
    + intros H; inversion H; subst. left. split; [discriminate | reflexivity].
  - intros H; inversion H; subst. left. auto.
Qed.

Lemma Attr_total nbCc f s :
  exists t err, Attr nbCc f s = (Done (t, err), snd (Attr nbCc f s)).
Proof.
  unfold Attr, bind, syscall.
  destruct (sys_ioctl (File_Fd f) TCGETS (ArgTermios (Termios_zero nbCc)) (os s))
    as [[e out] w].
  destruct (negb (e =? 0)); eexists; eexists; reflexivity.
Qed.

(** C7: [Isatty] returns true exactly when [Attr] on the same handle
    succeeds; it always returns a boolean, never an error or a panic: a
    failure of [Attr] is folded to false. *)
Theorem Isatty_iff_Attr nbCc f s :
  (exists b, fst (Isatty nbCc f s) = Done b) /\
  (fst (Isatty nbCc f s) = Done true <-> exists t, fst (Attr nbCc f s) = Done (t, None)) /\
  (fst (Isatty nbCc f s) = Done false <->
     exists t e, fst (Attr nbCc f s) = Done (t, Some e)) /\
  snd (Isatty nbCc f s) = snd (Attr nbCc f s).
Proof.
  destruct (Attr_total nbCc f s) as (t & err & Ha).
  unfold Isatty. rewrite (bind_done _ _ _ _ _ Ha). rewrite Ha. simpl.
  destruct err as [e|]; repeat split; eauto; try discriminate.
  - intros [t' H]; inversion H.
  - intros (t' & e' & H); inversion H.
Qed.

(** C8: the attributes [Attr] returns have both speed fields masked with
    [CBAUD | CBAUDEX]; on success every other field is the one the kernel
    holds for the descriptor, and the speeds are the kernel's with that
    mask applied. *)
Theorem Attr_masks_speeds nbCc f s t err s' :
  Attr nbCc f s = (Done (t, err), s') ->
  Ispeed t = Z.land (Ispeed t) (Z.lor CBAUD CBAUDEX) /\
  Ospeed t = Z.land (Ospeed t) (Z.lor CBAUD CBAUDEX) /\
  (err = None ->
   exists n k,
     fdtab (os s) !! File_Fd f = Some n /\ n_tio n = Some k /\
     Iflag t = Iflag k /\ Oflag t = Oflag k /\ Cflag t = Cflag k /\
     Lflag t = Lflag k /\ Cc t = Cc k /\
     Ispeed t = Z.land (Ispeed k) (Z.lor CBAUD CBAUDEX) /\
     Ospeed t = Z.land (Ospeed k) (Z.lor CBAUD CBAUDEX)).
Proof.
  unfold Attr, bind, syscall.
  destruct (sys_ioctl (File_Fd f) TCGETS (ArgTermios (Termios_zero nbCc)) (os s))
    as [[e out] w] eqn:Hk.
  destruct (tcgets_cases _ _ _ _ _ _ Hk) as [[Hne Ho]|[He (n & k & Hn & Hkk & Ho)]]; subst.
  - destruct (Z.eqb_spec e 0) as [|_]; [contradiction|]. simpl.
    intros H; inversion H; subst. simpl. repeat split; discriminate.
  - simpl. intros H; inversion H; subst. simpl.
    rewrite <- !Z.land_assoc, !Z.land_diag.
    repeat split. intros _. exists n, k. repeat split; auto.
Qed.

Lemma Attr_masks_speeds_witness :
  Ispeed (masked sample_tio) = Z.land (Ispeed (masked sample_tio)) (Z.lor CBAUD CBAUDEX) /\
  Ospeed (masked sample_tio) = Z.land (Ospeed (masked sample_tio)) (Z.lor CBAUD CBAUDEX) /\
  (@None error = None ->
   exists n k,
     fdtab (os (mkState (sample_tty [] []) [])) !! File_Fd sample_file = Some n /\
     n_tio n = Some k /\
     Iflag (masked sample_tio) = Iflag k /\ Oflag (masked sample_tio) = Oflag k /\
     Cflag (masked sample_tio) = Cflag k /\ Lflag (masked sample_tio) = Lflag k /\
     Cc (masked sample_tio) = Cc k /\
     Ispeed (masked sample_tio) = Z.land (Ispeed k) (Z.lor CBAUD CBAUDEX) /\
     Ospeed (masked sample_tio) = Z.land (Ospeed k) (Z.lor CBAUD CBAUDEX)).
Proof.
  apply (Attr_masks_speeds 20 sample_file (mkState (sample_tty [] []) [])
           (masked sample_tio) None
           (snd (Attr 20 sample_file (mkState (sample_tty [] []) [])))).
  vm_compute. reflexivity.
Defined.

(** ** Pseudo-terminal numbers and names *)

Lemma low32_range (n : Z) : 0 <= low32 n < 2 ^ 32.
Proof.
  unfold low32. change 0xFFFFFFFF with (Z.ones 32).
  rewrite Z.land_ones by lia. apply Z.mod_pos_bound. lia.
Qed.

Lemma int_of_uint_small (n : Z) : 0 <= n < 2 ^ 63 -> int_of_uint n = n.
Proof.
  intros H. unfold int_of_uint.
  rewrite Z.mod_small by lia.
  destruct (Z.ltb_spec n (2 ^ 63)); [reflexivity | lia].
Qed.

(** What the kernel answers to the pty-number request on a zeroed word. *)
Lemma tiocgptn_cases fd w e out w' :
  sys_ioctl fd TIOCGPTN (ArgUint 0) w = ((e, out), w') ->
  trace w' = trace w ++ [mkEvent (SysIoctl fd TIOCGPTN) e] /\
  ((e <> 0 /\ out = ArgUint 0) \/
   (e = 0 /\ exists n info,
      fdtab w !! fd = Some n /\ n_pty n = Some info /\
      out = ArgUint (low32 (pty_index info)))).
Proof.
  unfold sys_ioctl, pop_fault. simpl.
  destruct (Z.eqb_spec (hd 0 (faults w)) 0) as [Hz|Hnz]; simpl.
  - destruct (fdtab w !! fd) as [n|] eqn:Hn.
    + unfold ioctl_node.
      change (TIOCGPTN =? TCGETS) with false. change (TIOCGPTN =? TCSETS) with false.
      change (TIOCGPTN =? TIOCGPTN) with true. cbn iota.
      destruct (n_pty n) as [info|] eqn:Hp; intros H; inversion H; subst;
        (split; [reflexivity|]).
      * right. split; [reflexivity|]. exists n, info.
        rewrite ?Z.ldiff_0_l, ?Z.lor_0_l. auto.
      * left. split; [discriminate | reflexivity].
    + intros H; inversion H; subst. split; [reflexivity|].
      left. split; [discriminate | reflexivity].
  - intros H; inversion H; subst. split; [reflexivity|]. left. auto.
Qed.

(** C9: when [PTSNumber] succeeds with N, [PTSName] on the same pair
    returns "/dev/pts/" followed by N in decimal.  The number is not kept
    in the pair: the call asks the kernel through the master descriptor,
    and N is the index the kernel holds at that moment. *)
Theorem PTSName_of_PTSNumber p s N s' :
  PTSNumber p s = (Done (N, None), s') ->
  PTSName p s = (Done ("/dev/pts/" +:+ Itoa N, None), s') /\
  exists q n info,
    p = Some q /\
    fdtab (os s) !! File_Fd (Master q) = Some n /\ n_pty n = Some info /\
    N = low32 (pty_index info) /\
    trace (os s') = trace (os s) ++ [mkEvent (SysIoctl (File_Fd (Master q)) TIOCGPTN) 0].
Proof.
  intros H. assert (H' := H). revert H'.
  unfold PTSName. rewrite (bind_done _ _ _ _ _ H). cbn beta iota.
  destruct p as [q|]; [|discriminate].
  unfold PTSNumber, bind, syscall.
  destruct (sys_ioctl (File_Fd (Master q)) TIOCGPTN (ArgUint 0) (os s))
    as [[e out] w] eqn:Hk.
  destruct (tiocgptn_cases _ _ _ _ _ Hk) as [Ht [[Hne Ho]|[He (n & info & Hn & Hp & Ho)]]];
    subst.
  - destruct (Z.eqb_spec e 0) as [|_]; [contradiction|]. discriminate.
  - simpl. intros Heq; inversion Heq; subst.
    rewrite int_of_uint_small by (pose proof (low32_range (pty_index info)); lia).
    split; [reflexivity|]. exists q, n, info. simpl. auto.
Qed.

Lemma PTSName_of_PTSNumber_witness :
  PTSName (Some sample_pair) (mkState sample_master []) =
    (Done ("/dev/pts/" +:+ Itoa 7, None),
     snd (PTSNumber (Some sample_pair) (mkState sample_master []))) /\
  exists q n info,
    Some sample_pair = Some q /\
    fdtab (os (mkState sample_master [])) !! File_Fd (Master q) = Some n /\
    n_pty n = Some info /\
    7 = low32 (pty_index info) /\
    trace (os (snd (PTSNumber (Some sample_pair) (mkState sample_master [])))) =
      trace (os (mkState sample_master [])) ++
      [mkEvent (SysIoctl (File_Fd (Master q)) TIOCGPTN) 0].
Proof.
  apply (PTSName_of_PTSNumber (Some sample_pair) (mkState sample_master []) 7).
  vm_compute. reflexivity.
Defined.

Lemma PTSNumber_total q s :
  exists r, PTSNumber (Some q) s = (Done r, snd (PTSNumber (Some q) s)).
Proof.
  unfold PTSNumber, bind, syscall.
  destruct (sys_ioctl (File_Fd (Master q)) TIOCGPTN (ArgUint 0) (os s)) as [[e out] w].
  destruct (negb (e =? 0)); eexists; reflexivity.
Qed.

(** C10: [Close] on a nil pair returns an error without panicking and
    without touching the kernel.  [PTSNumber] and [PTSName] have no such
    guard, on a nil pair they panic; on a pair whose master handle is not
    nil they always return. *)
Theorem nil_pair_guard errno_text :
  (forall s, Close errno_text None s = (Done (Some (errorString "no PTY")), s)) /\
  (forall s, PTSNumber None s = (Panic, s)) /\
  (forall s, PTSName None s = (Panic, s)) /\
  (forall q h s,
     Master q = Some h ->
     (exists r s', PTSNumber (Some q) s = (Done r, s')) /\
     (exists r s', PTSName (Some q) s = (Done r, s'))).
Proof.
  repeat split; try reflexivity.
  - destruct (PTSNumber_total q s) as [r Hr]. eauto.
  - destruct (PTSNumber_total q s) as [[n err] Hr].
    unfold PTSName. rewrite (bind_done _ _ _ _ _ Hr).
    destruct err; eexists; eexists; reflexivity.
Qed.

(** On a pair that is not nil but has a nil master, [Fd] yields the
    invalid descriptor and the request fails in the kernel: an error, not
    a panic. *)
Example PTSNumber_nil_master :
  fst (PTSNumber (Some (mkPTY None None)) (mkState sample_master [])) =
    Done (0, Some (Errno EBADF)).
Proof.
  vm_compute. reflexivity.
Qed.

(** ** Closing a pair *)

(** [f.Close()] always returns.  On a handle that was closed before it
    makes no kernel call; otherwise it makes one close call, which
    releases the descriptor, and its error is nil exactly when the kernel
    reported none. *)
Lemma File_Close_cases h s :
  (fdtab (os s) !! file_fd h = None /\
   File_Close h s = (Done (Some (PathError "close" (file_name h) ErrClosed)), s)) \/
  (exists n e s1,
     fdtab (os s) !! file_fd h = Some n /\
     File_Close h s =
       (Done (if e =? 0 then None
              else Some (PathError "close" (file_name h) (Errno e))), s1) /\
     trace (os s1) = trace (os s) ++ [mkEvent (SysClose (file_fd h)) e] /\
     fdtab (os s1) = delete (file_fd h) (fdtab (os s))).
Proof.
  unfold File_Close.
  destruct (fdtab (os s) !! file_fd h) as [n|] eqn:Hn.
  - right. unfold bind, syscall.
    destruct (sys_close (file_fd h) (os s)) as [e w] eqn:Hk.
    exists n, e, (set_os w s). split; [reflexivity|]. split.
    + destruct (e =? 0); reflexivity.
    + revert Hk. unfold sys_close, pop_fault. simpl. rewrite Hn.
      destruct (negb (hd 0 (faults (os s)) =? 0));
        intros H; inversion H; subst; split; reflexivity.
  - left. split; reflexivity.
Qed.

Lemma File_Close_total h s : exists r s1, File_Close h s = (Done r, s1).
Proof.
  destruct (File_Close_cases h s) as [[_ H]|(n & e & s1 & _ & H & _)]; eauto.
Qed.

(** C5: on a pair, [Close] closes the slave and then, whatever came of
    that, the master; a nil handle counts as an error of its side.  It
    returns nil only when both sides closed without error; otherwise one
    error whose text names each side that failed, slave first, with that
    side's message.  When the two handles are open on different
    descriptors, the kernel sees exactly two close calls, the slave's
    first, and a side's error is nil exactly when its call reported
    none. *)
Theorem Close_aggregates errno_text q s :
  exists se me s1 s2,
    close_side "Slave FD nil" (Slave q) s = (Done se, s1) /\
    close_side "Master FD nil" (Master q) s1 = (Done me, s2) /\
    Close errno_text (Some q) s =
      (Done match se, me with
            | None, None => None
            | Some a, None =>
                Some (errorString ("Slave: " +:+ Error errno_text a))
            | None, Some b =>
                Some (errorString ("Master: " +:+ Error errno_text b))
            | Some a, Some b =>
                Some (errorString ("Slave: " +:+ Error errno_text a +:+ " " +:+
                                   "Master: " +:+ Error errno_text b))
            end, s2) /\
    (forall hs hm,
       Slave q = Some hs -> Master q = Some hm ->
       is_Some (fdtab (os s) !! file_fd hs) ->
       is_Some (fdtab (os s) !! file_fd hm) ->
       file_fd hs <> file_fd hm ->
       exists e1 e2,
         trace (os s2) =
           trace (os s) ++ [mkEvent (SysClose (file_fd hs)) e1;
                            mkEvent (SysClose (file_fd hm)) e2] /\
         (se = None <-> e1 = 0) /\ (me = None <-> e2 = 0)).
Proof.
  assert (Hside : forall msg f s0, exists r s0', close_side msg f s0 = (Done r, s0')).
  { intros msg [h|] s0; simpl.
    - apply File_Close_total.
    - eexists; eexists; reflexivity. }
  destruct (Hside "Slave FD nil"%string (Slave q) s) as (se & s1 & Hs).
  destruct (Hside "Master FD nil"%string (Master q) s1) as (me & s2 & Hm).
  exists se, me, s1, s2. split; [exact Hs|]. split; [exact Hm|]. split.
  - unfold Close. unfold close_side in Hs, Hm.
    rewrite (bind_done _ _ _ _ _ Hs). rewrite (bind_done _ _ _ _ _ Hm).
    destruct se, me; reflexivity.
  - intros hs hm Hhs Hhm [ns Hns] [nm Hnm] Hne.
    rewrite Hhs in Hs. rewrite Hhm in Hm. simpl in Hs, Hm.
    destruct (File_Close_cases hs s) as [[Habs _]|(n1 & e1 & s1' & _ & Hc1 & Ht1 & Hf1)];
      [rewrite Hns in Habs; discriminate|].
    rewrite Hs in Hc1. injection Hc1 as Hse Hs1. subst s1'.
    destruct (File_Close_cases hm s1)
      as [[Habs _]|(n2 & e2 & s2' & _ & Hc2 & Ht2 & Hf2)].
    { rewrite Hf1, lookup_delete_ne, Hnm in Habs by exact Hne. discriminate. }
    rewrite Hm in Hc2. injection Hc2 as Hme Hs2. subst s2'.
    exists e1, e2. split; [rewrite Ht2, Ht1, <- app_assoc; reflexivity|].
    rewrite Hse, Hme. split.
    + destruct (Z.eqb_spec e1 0); split; intros; try reflexivity; try assumption;
        try discriminate; contradiction.
    + destruct (Z.eqb_spec e2 0); split; intros; try reflexivity; try assumption;
        try discriminate; contradiction.
Qed.

(** Only the slave cannot be closed (it was closed before): the error
    names the slave and not the master. *)
Example Close_names_the_slave errno_text :
  fst (Close errno_text (Some sample_pair) (mkState sample_master [])) =
    Done (Some (errorString "Slave: close /dev/ttys007: file already closed")).
Proof.
  vm_compute. reflexivity.
Qed.

(** Both handles open: two close calls, the slave's first, and nil. *)
Example Close_both_open errno_text :
  let r := Close errno_text (Some sample_pair) (mkState sample_both_open []) in
  fst r = Done None /\
  trace (os (snd r)) = [mkEvent (SysClose 6) 0; mkEvent (SysClose 5) 0].
Proof.
  vm_compute. split; reflexivity.
Qed.

(** ** Allocating a pair *)

(** A control request other than the attribute write is served with one
    trace entry and leaves the descriptor table as it was. *)
Lemma sys_ioctl_cases fd cmd arg w :
  exists e out w',
    sys_ioctl fd cmd arg w = ((e, out), w') /\
    trace w' = trace w ++ [mkEvent (SysIoctl fd cmd) e] /\
    next_fd w' = next_fd w /\
    (cmd <> TCSETS -> fdtab w' = fdtab w).
Proof.
  unfold sys_ioctl, pop_fault. simpl.
  destruct (negb (hd 0 (faults w) =? 0)).
  - eexists; eexists; eexists. split; [reflexivity|]. simpl. auto.
  - destruct (fdtab w !! fd) as [n|] eqn:Hn.
    + destruct (ioctl_node cmd arg n) as [[e out] n'] eqn:Hio.
      eexists; eexists; eexists. split; [reflexivity|]. simpl.
      split; [reflexivity|]. split; [reflexivity|].
      intros Hc. assert (n' = n); [|subst; apply insert_id; exact Hn].
      revert Hio. unfold ioctl_node.
      destruct (cmd =? TCGETS);
        [destruct (n_tio n), arg; intros H; inversion H; reflexivity|].
      destruct (Z.eqb_spec cmd TCSETS); [contradiction|].
      destruct (cmd =? TIOCGPTN);
        [destruct (n_pty n), arg; intros H; inversion H; reflexivity|].
      destruct (cmd =? TIOCPTYGNAME);
        [destruct (n_pty n), arg; intros H; inversion H; reflexivity|].
      destruct ((cmd =? TIOCPTYGRANT) || (cmd =? TIOCPTYUNLK));
        [destruct (n_pty n); intros H; inversion H; reflexivity|].
      intros H; inversion H; reflexivity.
    + eexists; eexists; eexists. split; [reflexivity|]. simpl. auto.
Qed.

Lemma ioctl_cases fd cmd arg s :
  cmd <> TCSETS ->
  exists e out s1,
    ioctl fd cmd arg s = (Done (err_of e, out), s1) /\
    trace (os s1) = trace (os s) ++ [mkEvent (SysIoctl fd cmd) e] /\
    next_fd (os s1) = next_fd (os s) /\
    fdtab (os s1) = fdtab (os s).
Proof.
  intros Hc.
  destruct (sys_ioctl_cases fd cmd arg (os s)) as (e & out & w' & Hk & Ht & Hn & Hf).
  exists e, out, (set_os w' s). split; [|simpl; auto].
  unfold ioctl. rewrite (bind_done _ _ _ _ _ (syscall_run _ _ _ _ Hk)).
  unfold err_of. destruct (e =? 0); reflexivity.
Qed.

(** The buffer [ptsname] makes for the name request has 128 bytes. *)
Example ptsname_buffer_size : Z.to_nat (_IOC_PARM_LEN TIOCPTYGNAME) = 128%nat.
Proof. reflexivity. Qed.

Lemma until_nul_app (pre l : list byte) :
  no_nul pre -> until_nul (pre ++ x00 :: l) = Some pre.
Proof.
  induction 1 as [|c pre Hc _ IH]; simpl.
  - reflexivity.
  - rewrite Hc, IH. reflexivity.
Qed.

Lemma until_nul_none (l : list byte) : no_nul l -> until_nul l = None.
Proof.
  induction 1 as [|c l Hc _ IH]; simpl.
  - reflexivity.
  - rewrite Hc, IH. reflexivity.
Qed.

Lemma overlay_names (reply pre : list byte) :
  reply_names reply pre ->
  until_nul (overlay reply (replicate (Z.to_nat (_IOC_PARM_LEN TIOCPTYGNAME)) x00)) =
    Some pre.
Proof.
  intros (Hnn & Hlen & Hrep). rewrite ptsname_buffer_size in *.
  unfold overlay. rewrite length_replicate.
  destruct Hrep as [->|[r ->]].
  - rewrite take_ge by lia. rewrite drop_replicate.
    destruct (128 - length pre)%nat as [|m] eqn:Hm; [lia|]. simpl.
    apply until_nul_app. exact Hnn.
  - rewrite take_app_ge by lia.
    destruct (128 - length pre)%nat as [|m] eqn:Hm; [lia|]. simpl.
    rewrite <- app_assoc. simpl. apply until_nul_app. exact Hnn.
Qed.

(** Every reply has a first NUL or none. *)
Lemma first_nul (l : list byte) :
  no_nul l \/ exists pre r, l = pre ++ x00 :: r /\ no_nul pre.
Proof.
  induction l as [|c l IH].
  - left. constructor.
  - destruct (Byte.eqb c x00) eqn:Hc.
    + right. exists [], l. apply Byte.byte_dec_bl in Hc. subst c.
      split; [reflexivity | constructor].
    + destruct IH as [Hn|(pre & r & -> & Hn)].
      * left. constructor; assumption.
      * right. exists (c :: pre), r. split; [reflexivity|]. constructor; assumption.
Qed.

(** What the scan of [ptsname] finds in the buffer, told without the
    scan: the name the reply spells, or nothing when the reply fills the
    buffer without a NUL. *)
Lemma overlay_cases (reply : list byte) :
  (exists pre,
     reply_names reply pre /\
     until_nul (overlay reply (replicate (Z.to_nat (_IOC_PARM_LEN TIOCPTYGNAME)) x00)) =
       Some pre) \/
  ((Z.to_nat (_IOC_PARM_LEN TIOCPTYGNAME) <= length reply)%nat /\
   no_nul (take (Z.to_nat (_IOC_PARM_LEN TIOCPTYGNAME)) reply) /\
   until_nul (overlay reply (replicate (Z.to_nat (_IOC_PARM_LEN TIOCPTYGNAME)) x00)) =
     None).
Proof.
  set (N := Z.to_nat (_IOC_PARM_LEN TIOCPTYGNAME)).
  assert (Hfull : forall l : list byte,
            (N <= length l)%nat -> no_nul (take N l) ->
            until_nul (overlay l (replicate N x00)) = None).
  { intros l Hl Hn. unfold overlay. rewrite length_replicate, drop_replicate.
    replace (N - length l)%nat with 0%nat by lia. simpl replicate.
    rewrite app_nil_r. apply until_nul_none. exact Hn. }
  destruct (first_nul reply) as [Hn|(pre & r & Hrep & Hn)].
  - destruct (Nat.lt_ge_cases (length reply) N) as [Hlt|Hge].
    + left. exists reply.
      assert (Hrn : reply_names reply reply) by (split; [exact Hn|split; [exact Hlt|auto]]).
      split; [exact Hrn | apply overlay_names; exact Hrn].
    + right. assert (Hnt : no_nul (take N reply)) by (apply Forall_take; exact Hn).
      auto.
  - destruct (Nat.lt_ge_cases (length pre) N) as [Hlt|Hge].
    + left. exists pre.
      assert (Hrn : reply_names reply pre) by (split; [exact Hn|split; [exact Hlt|eauto]]).
      split; [exact Hrn | apply overlay_names; exact Hrn].
    + right.
      assert (Hlen : (N <= length reply)%nat) by (rewrite Hrep, length_app; lia).
      assert (Hnt : no_nul (take N reply)).
      { rewrite Hrep, take_app_le by lia. apply Forall_take. exact Hn. }
      auto.
Qed.

Lemma kernel_pts_name_spec fd w n info :
  fdtab w !! fd = Some n -> n_pty n = Some info ->
  match kernel_pts_name fd w with
  | Some sname => master_names fd w sname
  | None => master_unterminated fd w
  end.
Proof.
  intros Hn Hp. unfold kernel_pts_name. rewrite Hn, Hp.
  destruct (overlay_cases (pty_name info)) as [(pre & Hrn & Hu)|(Hlen & Hnn & Hu)];
    rewrite Hu.
  - exists n, info, pre. auto.
  - exists n, info. auto.
Qed.

Lemma master_names_same fd w w' sname :
  fdtab w' !! fd = fdtab w !! fd -> master_names fd w sname -> master_names fd w' sname.
Proof.
  intros H (n & info & pre & Hn & Hrest). exists n, info, pre. rewrite H. auto.
Qed.

Lemma master_unterminated_same fd w w' :
  fdtab w' !! fd = fdtab w !! fd -> master_unterminated fd w -> master_unterminated fd w'.
Proof.
  intros H (n & info & Hn & Hrest). exists n, info. rewrite H. auto.
Qed.

(** The name request: an error of the kernel, or the reply of a master
    laid over the zeroed buffer. *)
Lemma ptsname_cases fd name s :
  exists e r s1,
    ptsname (Some (mkfile fd name)) s = (Done r, s1) /\
    trace (os s1) = trace (os s) ++ [mkEvent (SysIoctl fd TIOCPTYGNAME) e] /\
    next_fd (os s1) = next_fd (os s) /\
    fdtab (os s1) = fdtab (os s) /\
    ((e <> 0 /\ r = (EmptyString, Some (Errno e))) \/
     (e = 0 /\
      (exists n info, fdtab (os s) !! fd = Some n /\ n_pty n = Some info) /\
      match kernel_pts_name fd (os s) with
      | Some sname => r = (sname, None)
      | None =>
          r = (EmptyString, Some (errorString "TIOCPTYGNAME string not NUL-terminated"))
      end)).
Proof.
  set (buf := replicate (Z.to_nat (_IOC_PARM_LEN TIOCPTYGNAME)) x00).
  destruct (sys_ioctl_cases fd TIOCPTYGNAME (ArgBytes buf) (os s))
    as (e & out & w' & Hk & Ht & Hn & Hf).
  specialize (Hf ltac:(discriminate)).
  assert (Hrun : ioctl (File_Fd (Some (mkfile fd name))) TIOCPTYGNAME (ArgBytes buf) s =
                 (Done (err_of e, out), set_os w' s)).
  { unfold ioctl. simpl. rewrite (bind_done _ _ _ _ _ (syscall_run _ _ _ _ Hk)).
    unfold err_of. destruct (e =? 0); reflexivity. }
  unfold ptsname. fold buf. rewrite (bind_done _ _ _ _ _ Hrun). cbn beta iota.
  unfold err_of. destruct (Z.eqb_spec e 0) as [He|He].
  - subst e. revert Hk. unfold sys_ioctl, pop_fault, kernel_pts_name. simpl.
    destruct (Z.eqb_spec (hd 0 (faults (os s))) 0) as [_|Hnz]; simpl;
      [|intros H; inversion H; contradiction].
    destruct (fdtab (os s) !! fd) as [n|]; [|unfold EBADF; intros H; discriminate H].
    unfold ioctl_node.
    change (TIOCPTYGNAME =? TCGETS) with false.
    change (TIOCPTYGNAME =? TCSETS) with false.
    change (TIOCPTYGNAME =? TIOCGPTN) with false.
    change (TIOCPTYGNAME =? TIOCPTYGNAME) with true. cbn iota.
    destruct (n_pty n) as [info|] eqn:Hp; [|unfold ENOTTY; intros H; discriminate H].
    intros H; inversion H; subst out w'. clear H. subst buf.
    destruct (until_nul (overlay (pty_name info) _));
      exists 0; eexists; eexists; (split; [reflexivity|]);
      (split; [exact Ht|]); (split; [exact Hn|]); (split; [exact Hf|]);
      right; (split; [reflexivity|]);
      (split; [exists n, info; auto | reflexivity]).
  - exists e; eexists; eexists. split; [reflexivity|].
    split; [exact Ht|]. split; [exact Hn|]. split; [exact Hf|]. left. auto.
Qed.

(** One open call, by its outcome. *)
Lemma sys_open_cases path w :
  exists e fd w',
    sys_open path w = ((e, fd), w') /\
    trace w' = trace w ++ [mkEvent (SysOpen path) e] /\
    ((e <> 0 /\ fdtab w' = fdtab w /\ next_fd w' = next_fd w) \/
     (e = 0 /\ fd = next_fd w /\ next_fd w' = next_fd w + 1 /\
      exists n, devs w !! path = Some n /\ fdtab w' = <[next_fd w := n]> (fdtab w))).
Proof.
  unfold sys_open, pop_fault. simpl.
  destruct (Z.eqb_spec (hd 0 (faults w)) 0) as [Hz|Hnz]; simpl.
  - destruct (devs w !! path) as [n|]; simpl.
    + exists 0. eexists; eexists. split; [reflexivity|]. split; [reflexivity|].
      right. simpl. eauto 8.
    + exists ENOENT. eexists; eexists. split; [reflexivity|]. split; [reflexivity|].
      left. simpl. split; [discriminate | auto].
  - eexists; eexists; eexists. split; [reflexivity|]. split; [reflexivity|].
    left. simpl. auto.
Qed.

(** An open is interrupted only by the schedule, at the cost of one of
    its entries, and with no other effect than the entry in the trace. *)
Lemma sys_open_interrupted path w a w' :
  sys_open path w = ((EINTR, a), w') ->
  faults w <> [] /\ w' = interrupted 1 (SysOpen path) w.
Proof.
  unfold sys_open, pop_fault. simpl.
  destruct (Z.eqb_spec (hd 0 (faults w)) 0) as [Hz|Hnz]; simpl.
  - destruct (devs w !! path); intros H; inversion H.
  - intros H. inversion H as [[He Ha]]. clear H. split.
    + intros Hf. rewrite Hf in He. discriminate He.
    + unfold interrupted, log. simpl. rewrite He.
      destruct (faults w); reflexivity.
Qed.

(** [os.OpenFile]: any number of interrupted opens, then the one that
    counts. *)
Lemma os_OpenFile_cases name s :
  exists k e s1,
    e <> EINTR /\
    ((e <> 0 /\
      os_OpenFile name s = (Done (None, Some (PathError "open" name (Errno e))), s1) /\
      fdtab (os s1) = fdtab (os s)) \/
     (e = 0 /\
      os_OpenFile name s = (Done (Some (mkfile (next_fd (os s)) name), None), s1) /\
      next_fd (os s1) = next_fd (os s) + 1 /\
      exists n, devs (os s) !! name = Some n /\
                fdtab (os s1) = <[next_fd (os s) := n]> (fdtab (os s)))) /\
    trace (os s1) =
      trace (os s) ++ replicate k (mkEvent (SysOpen name) EINTR) ++
      [mkEvent (SysOpen name) e].
Proof.
  destruct (ignoringEINTR_run (SysOpen name) (sys_open name)
              (sys_open_interrupted name) (length (faults (os s))) s (Nat.le_refl _))
    as (k & e & fd & w' & Hk & He & Hr).
  destruct (sys_open_cases name (interrupted k (SysOpen name) (os s)))
    as (e' & fd' & w'' & Hk' & Ht & Hc).
  rewrite Hk in Hk'. inversion Hk'; subst e' fd' w''. clear Hk'.
  simpl in Ht, Hc.
  assert (Hr' : retry (sys_open name) s = (Done (e, fd), set_os w' s)) by exact Hr.
  clear Hr. rename Hr' into Hr.
  exists k, e, (set_os w' s). split; [exact He|]. split.
  - destruct Hc as [(Hne & Hf & _)|(Hz & Hfd & Hn & n & Hd & Hf)].
    + left. split; [exact Hne|]. split; [|exact Hf].
      unfold os_OpenFile.
      rewrite (bind_done _ _ _ _ _ Hr).
      destruct (Z.eqb_spec e 0); [contradiction | reflexivity].
    + right. subst e fd. split; [reflexivity|]. split; [|split; [exact Hn|eauto]].
      unfold os_OpenFile. rewrite (bind_done _ _ _ _ _ Hr). reflexivity.
  - simpl. rewrite Ht, <- app_assoc. reflexivity.
Qed.

Lemma grantpt_cases fd name s :
  exists e s1,
    grantpt (Some (mkfile fd name)) s = (Done (err_of e), s1) /\
    trace (os s1) = trace (os s) ++ [mkEvent (SysIoctl fd TIOCPTYGRANT) e] /\
    next_fd (os s1) = next_fd (os s) /\
    fdtab (os s1) = fdtab (os s).
Proof.
  destruct (ioctl_cases fd TIOCPTYGRANT ArgNone s ltac:(discriminate))
    as (e & out & s1 & Hi & H).
  exists e, s1. split; [|exact H].
  unfold grantpt. simpl. rewrite (bind_done _ _ _ _ _ Hi). reflexivity.
Qed.

Lemma unlockpt_cases fd name s :
  exists e s1,
    unlockpt (Some (mkfile fd name)) s = (Done (err_of e), s1) /\
    trace (os s1) = trace (os s) ++ [mkEvent (SysIoctl fd TIOCPTYUNLK) e] /\
    next_fd (os s1) = next_fd (os s) /\
    fdtab (os s1) = fdtab (os s).
Proof.
  destruct (ioctl_cases fd TIOCPTYUNLK ArgNone s ltac:(discriminate))
    as (e & out & s1 & Hi & H).
  exists e, s1. split; [|exact H].
  unfold unlockpt. simpl. rewrite (bind_done _ _ _ _ _ Hi). reflexivity.
Qed.

Lemma kernel_pts_name_same fd w w' :
  fdtab w' !! fd = fdtab w !! fd -> kernel_pts_name fd w' = kernel_pts_name fd w.
Proof. intros H. unfold kernel_pts_name. rewrite H. reflexivity. Qed.

Lemma err_of_nonzero e : e <> 0 -> err_of e = Some (Errno e).
Proof. intros H. unfold err_of. destruct (Z.eqb_spec e 0); [contradiction | reflexivity]. Qed.

(** C6: [OpenPTY] opens "/dev/ptmx", asks the master for the slave name,
    grants, unlocks, opens the slave under the name the kernel's reply
    spells, and returns the pair, in this order and with no other call;
    an open that is interrupted is made again, as [os.OpenFile] does.
    The first step that fails ends the call with that step's error; the
    calls made up to then are all there is in the trace, so no close is
    among them, and the master's descriptor is still open. *)
Theorem OpenPTY_steps s :
  exists r s' k1,
    OpenPTY s = (Done r, s') /\
    let fd := next_fd (os s) in
    let tries := replicate k1 (mkEvent (SysOpen "/dev/ptmx") EINTR) in
    let opened := mkEvent (SysOpen "/dev/ptmx") 0 in
    let req := fun c e => mkEvent (SysIoctl fd c) e in
    (exists e,
        e <> 0 /\ e <> EINTR /\
        new_events s s' = tries ++ [mkEvent (SysOpen "/dev/ptmx") e] /\
        r = (None, Some (PathError "open" "/dev/ptmx" (Errno e)))) \/
    (is_Some (fdtab (os s') !! fd) /\
     ((exists e,
         e <> 0 /\
         new_events s s' = tries ++ [opened; req TIOCPTYGNAME e] /\
         r = (None, Some (Errno e))) \/
      (master_unterminated fd (os s') /\
       new_events s s' = tries ++ [opened; req TIOCPTYGNAME 0] /\
       r = (None, Some (errorString "TIOCPTYGNAME string not NUL-terminated"))) \/
      (exists e,
         e <> 0 /\
         new_events s s' = tries ++ [opened; req TIOCPTYGNAME 0; req TIOCPTYGRANT e] /\
         r = (None, Some (Errno e))) \/
      (exists e,
         e <> 0 /\
         new_events s s' =
           tries ++ [opened; req TIOCPTYGNAME 0; req TIOCPTYGRANT 0; req TIOCPTYUNLK e] /\
         r = (None, Some (Errno e))) \/
      (exists e sname k2,
         e <> 0 /\ e <> EINTR /\
         master_names fd (os s') sname /\
         new_events s s' =
           tries ++
           [opened; req TIOCPTYGNAME 0; req TIOCPTYGRANT 0; req TIOCPTYUNLK 0] ++
           replicate k2 (mkEvent (SysOpen sname) EINTR) ++
           [mkEvent (SysOpen sname) e] /\
         r = (None, Some (PathError "open" sname (Errno e)))) \/
      (exists sname k2,
         master_names fd (os s') sname /\
         new_events s s' =
           tries ++
           [opened; req TIOCPTYGNAME 0; req TIOCPTYGRANT 0; req TIOCPTYUNLK 0] ++
           replicate k2 (mkEvent (SysOpen sname) EINTR) ++
           [mkEvent (SysOpen sname) 0] /\
         r = (Some (mkPTY (Some (mkfile fd "/dev/ptmx")) (Some (mkfile (fd + 1) sname))),
              None) /\
         is_Some (fdtab (os s') !! (fd + 1))))).
Proof.
  set (fd := next_fd (os s)).
  unfold OpenPTY.
  destruct (os_OpenFile_cases "/dev/ptmx" s)
    as (k1 & e1 & s1 & Hi1 & [(He1 & Ho1 & Hf1)|(He1 & Ho1 & Hn1 & n & _ & Hf1)] & Ht1);
    rewrite (bind_done _ _ _ _ _ Ho1); cbn beta iota.
  { eexists; eexists; exists k1. split; [reflexivity|]. left. exists e1.
    rewrite (new_events_app _ _ _ Ht1). auto. }
  subst e1. fold fd in Hf1, Hn1 |- *.
  set (tries := replicate k1 (mkEvent (SysOpen "/dev/ptmx") EINTR)) in *.
  assert (Hopen1 : is_Some (fdtab (os s1) !! fd))
    by (rewrite Hf1, lookup_insert_eq; eauto).
  destruct (ptsname_cases fd "/dev/ptmx" s1)
    as (e2 & r2 & s2 & Hp & Ht2 & Hn2 & Hf2 & Hr2).
  rewrite (bind_done _ _ _ _ _ Hp).
  assert (Ht2' : trace (os s2) =
                 trace (os s) ++ tries ++
                 [mkEvent (SysOpen "/dev/ptmx") 0;
                  mkEvent (SysIoctl fd TIOCPTYGNAME) e2])
    by (rewrite Ht2, Ht1, <- !app_assoc; reflexivity).
  destruct Hr2 as [(He2 & Hr2)|(He2 & (n1 & info & Hnode & Hpty) & Hr2)]; subst.
  { eexists; eexists; exists k1. split; [reflexivity|]. right.
    split; [rewrite Hf2; exact Hopen1|]. left. exists e2.
    rewrite (new_events_app _ _ _ Ht2'). auto. }
  assert (Hspec := kernel_pts_name_spec fd (os s1) n1 info Hnode Hpty).
  destruct (kernel_pts_name fd (os s1)) as [sname|]; subst r2; cbn beta iota.
  2: { eexists; eexists; exists k1. split; [reflexivity|]. right.
       split; [rewrite Hf2; exact Hopen1|]. right. left.
       rewrite (new_events_app _ _ _ Ht2').
       split; [|auto].
       apply (master_unterminated_same fd (os s1)); [rewrite Hf2; reflexivity | exact Hspec]. }
  assert (Hname2 : master_names fd (os s2) sname)
    by (apply (master_names_same fd (os s1)); [rewrite Hf2; reflexivity | exact Hspec]).
  destruct (grantpt_cases fd "/dev/ptmx" s2) as (e3 & s3 & Hg & Ht3 & Hn3 & Hf3).
  rewrite (bind_done _ _ _ _ _ Hg).
  assert (Ht3' : trace (os s3) =
                 trace (os s) ++ tries ++
                 [mkEvent (SysOpen "/dev/ptmx") 0;
                  mkEvent (SysIoctl fd TIOCPTYGNAME) 0;
                  mkEvent (SysIoctl fd TIOCPTYGRANT) e3])
    by (rewrite Ht3, Ht2', <- !app_assoc; reflexivity).
  destruct (Z.eq_dec e3 0) as [He3|He3].
  2: { rewrite (err_of_nonzero _ He3).
       eexists; eexists; exists k1. split; [reflexivity|]. right.
       split; [rewrite Hf3, Hf2; exact Hopen1|]. do 2 right. left. exists e3.
       rewrite (new_events_app _ _ _ Ht3'). auto. }
  subst e3. change (err_of 0) with (@None error). cbn beta iota.
  destruct (unlockpt_cases fd "/dev/ptmx" s3) as (e4 & s4 & Hu & Ht4 & Hn4 & Hf4).
  rewrite (bind_done _ _ _ _ _ Hu).
  assert (Ht4' : trace (os s4) =
                 trace (os s) ++ tries ++
                 [mkEvent (SysOpen "/dev/ptmx") 0;
                  mkEvent (SysIoctl fd TIOCPTYGNAME) 0;
                  mkEvent (SysIoctl fd TIOCPTYGRANT) 0;
                  mkEvent (SysIoctl fd TIOCPTYUNLK) e4])
    by (rewrite Ht4, Ht3', <- !app_assoc; reflexivity).
  assert (Hname4 : master_names fd (os s4) sname)
    by (apply (master_names_same fd (os s2)); [rewrite Hf4, Hf3; reflexivity | exact Hname2]).
  assert (Hopen4 : is_Some (fdtab (os s4) !! fd))
    by (rewrite Hf4, Hf3, Hf2; exact Hopen1).
  destruct (Z.eq_dec e4 0) as [He4|He4].
  2: { rewrite (err_of_nonzero _ He4).
       eexists; eexists; exists k1. split; [reflexivity|]. right.
       split; [exact Hopen4|]. do 3 right. left. exists e4.
       rewrite (new_events_app _ _ _ Ht4'). auto. }
  subst e4. change (err_of 0) with (@None error). cbn beta iota.
  destruct (os_OpenFile_cases sname s4)
    as (k2 & e5 & s5 & Hi5 &
        [(He5 & Ho5 & Hf5)|(He5 & Ho5 & Hn5 & n5 & _ & Hf5)] & Ht5);
    rewrite (bind_done _ _ _ _ _ Ho5); cbn beta iota.
  - assert (Ht5' : trace (os s5) =
                   trace (os s) ++ tries ++
                   [mkEvent (SysOpen "/dev/ptmx") 0;
                    mkEvent (SysIoctl fd TIOCPTYGNAME) 0;
                    mkEvent (SysIoctl fd TIOCPTYGRANT) 0;
                    mkEvent (SysIoctl fd TIOCPTYUNLK) 0] ++
                   replicate k2 (mkEvent (SysOpen sname) EINTR) ++
                   [mkEvent (SysOpen sname) e5])
      by (rewrite Ht5, Ht4', <- !app_assoc; reflexivity).
    eexists; eexists; exists k1. split; [reflexivity|]. right.
    split; [rewrite Hf5; exact Hopen4|]. do 4 right. left. exists e5, sname, k2.
    rewrite (new_events_app _ _ _ Ht5').
    split; [exact He5|]. split; [exact Hi5|]. split; [|auto].
    apply (master_names_same fd (os s4)); [rewrite Hf5; reflexivity | exact Hname4].
  - subst e5.
    assert (Hfd4 : next_fd (os s4) = fd + 1) by (rewrite Hn4, Hn3, Hn2; exact Hn1).
    rewrite Hfd4 in Hf5, Ho5 |- *.
    assert (Ht5' : trace (os s5) =
                   trace (os s) ++ tries ++
                   [mkEvent (SysOpen "/dev/ptmx") 0;
                    mkEvent (SysIoctl fd TIOCPTYGNAME) 0;
                    mkEvent (SysIoctl fd TIOCPTYGRANT) 0;
                    mkEvent (SysIoctl fd TIOCPTYUNLK) 0] ++
                   replicate k2 (mkEvent (SysOpen sname) EINTR) ++
                   [mkEvent (SysOpen sname) 0])
      by (rewrite Ht5, Ht4', <- !app_assoc; reflexivity).
    assert (Hkeep : fdtab (os s5) !! fd = fdtab (os s4) !! fd)
      by (rewrite Hf5; apply lookup_insert_ne; lia).
    eexists; eexists; exists k1. split; [reflexivity|]. right.
    split; [rewrite Hkeep; exact Hopen4|]. do 5 right. exists sname, k2.
    rewrite (new_events_app _ _ _ Ht5').
    split; [apply (master_names_same fd (os s4)); [exact Hkeep | exact Hname4]|].
    split; [reflexivity|]. split; [reflexivity|].
    rewrite Hf5, lookup_insert_eq. eauto.
Qed.

(** An open of "/dev/ptmx" that is interrupted once is made again, and
    the allocation goes through. *)
Example OpenPTY_interrupted_once :
  let r := OpenPTY (mkState (sample_devs [EINTR]) []) in
  fst r = Done (Some (mkPTY (Some (mkfile 3 "/dev/ptmx"))
                            (Some (mkfile 4 "/dev/ttys007"))), None) /\
  trace (os (snd r)) =
    [mkEvent (SysOpen "/dev/ptmx") EINTR;
     mkEvent (SysOpen "/dev/ptmx") 0;
     mkEvent (SysIoctl 3 TIOCPTYGNAME) 0;
     mkEvent (SysIoctl 3 TIOCPTYGRANT) 0;
     mkEvent (SysIoctl 3 TIOCPTYUNLK) 0;
     mkEvent (SysOpen "/dev/ttys007") 0].
Proof.
  vm_compute. split; reflexivity.
Qed.

(** A name request that is interrupted is not made again: the raw system
    call of [ioctl] hands the interruption to the caller. *)
Example OpenPTY_name_request_interrupted :
  let r := OpenPTY (mkState (sample_devs [0; EINTR]) []) in
  fst r = Done (None, Some (Errno EINTR)) /\
  trace (os (snd r)) =
    [mkEvent (SysOpen "/dev/ptmx") 0; mkEvent (SysIoctl 3 TIOCPTYGNAME) EINTR].
Proof.
  vm_compute. split; reflexivity.
Qed.

(** * Further properties *)

(** ** Request codes *)

Lemma mask_is_ones : _IOC_PARAM_MASK = Z.ones 13.
Proof. reflexivity. Qed.

Lemma testbit_small (a k n : Z) :
  0 <= k -> 0 <= a < 2 ^ k -> k <= n -> Z.testbit a n = false.
Proof.
  intros Hk Ha Hn. rewrite <- (Z.mod_small a (2 ^ k)) by lia.
  apply Z.mod_pow2_bits_high. lia.
Qed.

Lemma IOC_parm_len (inout group num plen : Z) :
  Z.land inout parm_len_bits = 0 ->
  0 <= group < 2 ^ 8 ->
  0 <= num < 2 ^ 16 ->
  _IOC_PARM_LEN (_IOC inout group num plen) = Z.land plen _IOC_PARAM_MASK.
Proof.
  intros Hin Hg Hnum.
  assert (Hm : 0 <= Z.land plen _IOC_PARAM_MASK < 2 ^ 13).
  { rewrite mask_is_ones, Z.land_ones by lia. apply Z.mod_pos_bound. lia. }
  unfold _IOC_PARM_LEN, _IOC, uintptr.
  rewrite (Z.mod_small (Z.shiftl (Z.land plen _IOC_PARAM_MASK) 16)).
  2: { rewrite Z.shiftl_mul_pow2 by lia. lia. }
  rewrite (Z.mod_small (Z.shiftl group 8)).
  2: { rewrite Z.shiftl_mul_pow2 by lia. lia. }
  apply Z.bits_inj'. intros n Hn.
  rewrite !Z.land_spec, Z.shiftr_spec, !Z.lor_spec, !Z.shiftl_spec by lia.
  replace (n + 16 - 16) with n by lia.
  rewrite Z.land_spec.
  rewrite (testbit_small group 8 (n + 16 - 8)) by lia.
  rewrite (testbit_small num 16 (n + 16)) by lia.
  rewrite !orb_false_r.
  destruct (Z.testbit _IOC_PARAM_MASK n) eqn:Hbit;
    [|rewrite !andb_false_r; reflexivity].
  assert (Hi : Z.testbit inout (n + 16) = false).
  { assert (H := f_equal (fun z => Z.testbit z (n + 16)) Hin). simpl in H.
    unfold parm_len_bits in H.
    rewrite Z.land_spec, Z.shiftl_spec, Z.bits_0 in H by lia.
    replace (n + 16 - 16) with n in H by lia.
    rewrite Hbit, andb_true_r in H. exact H. }
  rewrite Hi. simpl. rewrite andb_true_r. reflexivity.
Qed.

(** X1: a request code built by [_IOC] gives back, through
    [_IOC_PARM_LEN], the parameter length it was built with, cut to 13
    bits; a code built by [_IO] has parameter length 0.  This needs the
    direction word to stay clear of the length bits (as the four
    direction constants do) and the request number to fit 16 bits. *)
Theorem IOC_PARM_LEN_of_IOC (inout group num plen : Z) :
  Z.land inout parm_len_bits = 0 ->
  0 <= group < 2 ^ 8 ->
  0 <= num < 2 ^ 16 ->
  _IOC_PARM_LEN (_IOC inout group num plen) = Z.land plen _IOC_PARAM_MASK /\
  (0 <= plen <= _IOC_PARAM_MASK -> _IOC_PARM_LEN (_IOC inout group num plen) = plen) /\
  _IOC_PARM_LEN (_IO group num) = 0.
Proof.
  intros Hin Hg Hnum. split; [|split].
  - apply IOC_parm_len; assumption.
  - intros Hp. rewrite IOC_parm_len by assumption.
    rewrite mask_is_ones, Z.land_ones by lia. apply Z.mod_small.
    change _IOC_PARAM_MASK with 8191 in Hp. lia.
  - unfold _IO. rewrite IOC_parm_len by (try assumption; reflexivity). reflexivity.
Qed.

Lemma IOC_PARM_LEN_of_IOC_witness :
  _IOC_PARM_LEN (_IOC _IOC_OUT 0x74 0x53 128) = Z.land 128 _IOC_PARAM_MASK /\
  (0 <= 128 <= _IOC_PARAM_MASK -> _IOC_PARM_LEN (_IOC _IOC_OUT 0x74 0x53 128) = 128) /\
  _IOC_PARM_LEN (_IO 0x74 0x53) = 0.
Proof.
  apply (IOC_PARM_LEN_of_IOC _IOC_OUT 0x74 0x53 128).
  - reflexivity.
  - lia.
  - lia.
Defined.

(** The name request of the source is the code [_IOC] builds for group
    't', number 0x53 and a 128-byte parameter read from the kernel. *)
Example TIOCPTYGNAME_is_IOC : _IOC _IOC_OUT 0x74 0x53 128 = TIOCPTYGNAME.
Proof. reflexivity. Qed.

Example TIOCPTYGRANT_is_IO : _IO 0x74 0x54 = TIOCPTYGRANT.
Proof. reflexivity. Qed.

(** ** Clearing the buffer *)

(** X2: on a slice that lies within its array [clearbuf] returns
    normally; afterwards every byte the slice shows is zero, and the bytes
    of the array behind the slice's length, the length of the array and
    the kernel are as before. *)
Theorem clearbuf_zeroes (b : slice) (s : State) :
  (len b <= length (mem s))%nat ->
  exists s',
    clearbuf b s = (Done tt, s') /\
    bytes_of b s' = replicate (len b) x00 /\
    drop (len b) (mem s') = drop (len b) (mem s) /\
    length (mem s') = length (mem s) /\
    os s' = os s.
Proof.
  intros H. eexists. split; [apply clearbuf_run; exact H|].
  unfold bytes_of. simpl. repeat split.
  - apply take_app_length'. rewrite length_replicate. reflexivity.
  - apply drop_app_length'. rewrite length_replicate. reflexivity.
  - rewrite length_app, length_replicate, length_drop. lia.
Qed.

Lemma clearbuf_zeroes_witness :
  exists s',
    clearbuf (mkslice 2 3) (mkState (sample_tty [] []) [x01; x01; x01]) = (Done tt, s') /\
    bytes_of (mkslice 2 3) s' = replicate (len (mkslice 2 3)) x00 /\
    drop (len (mkslice 2 3)) (mem s') =
      drop (len (mkslice 2 3)) (mem (mkState (sample_tty [] []) [x01; x01; x01])) /\
    length (mem s') = length (mem (mkState (sample_tty [] []) [x01; x01; x01])) /\
    os s' = os (mkState (sample_tty [] []) [x01; x01; x01]).
Proof.
  apply (clearbuf_zeroes (mkslice 2 3) (mkState (sample_tty [] []) [x01; x01; x01])).
  simpl. lia.
Defined.

(** ** More on the prompt reader *)

Lemma File_Read1_mem (f : File) (s s1 : State) r :
  File_Read1 f s = (r, s1) -> mem s1 = mem s.
Proof.
  destruct f as [h|]; simpl.
  - unfold bind.
    destruct (retry (sys_read1 (file_fd h)) s) as [o s0] eqn:Hr.
    apply retry_mem in Hr.
    destruct o as [[e c]|]; [|intros H; inversion H; subst; exact Hr].
    destruct (negb (e =? 0)); [|destruct c]; intros H; inversion H; subst; exact Hr.
  - intros H; inversion H; reflexivity.
Qed.

(** X3: an iteration of the loop of [GetPass] whose read fails zeroes the
    bytes stored so far together with the slot of the failed read, leaves
    the rest of the array alone, and goes on with the next slot: it does
    not leave the loop. *)
Theorem GetPass_loop_read_error (n i : nat) (f : File) (pbuf : slice) (b0 : byte)
    (s s1 : State) (e : error) :
  File_Read1 f s = (Done (None, Some e), s1) ->
  (i < len pbuf)%nat -> (len pbuf <= cap pbuf)%nat -> (cap pbuf <= length (mem s))%nat ->
  exists s2,
    GetPass_loop (S n) f pbuf i b0 s = GetPass_loop n f pbuf (i + 1) x00 s2 /\
    os s2 = os s1 /\
    take (i + 1) (mem s2) = replicate (i + 1) x00 /\
    drop (i + 1) (mem s2) = drop (i + 1) (mem s).
Proof.
  intros Hrd Hi Hlc Hcm.
  assert (Hm1 := File_Read1_mem _ _ _ _ Hrd).
  set (m2 := replicate (i + 1) x00 ++ drop (i + 1) (mem s1)).
  assert (Hclr : clearbuf (mkslice (i + 1) (cap pbuf)) s1 = (Done tt, set_mem m2 s1))
    by (apply clearbuf_run; simpl; rewrite Hm1; lia).
  assert (Hins : <[i := x00]> m2 = m2).
  { apply list_insert_id. unfold m2.
    rewrite lookup_app_l by (rewrite length_replicate; lia).
    apply lookup_replicate_2. lia. }
  exists (set_mem m2 s1). split; [|split; [reflexivity|split]].
  - cbn [GetPass_loop]. rewrite (bind_done _ _ _ _ _ Hrd). cbn beta iota.
    rewrite (bind_done _ _ _ (set_mem m2 s1) x00).
    2: { rewrite (bind_done _ _ _ _ _ (reslice_run pbuf (i + 1) s1 ltac:(lia))).
         rewrite (bind_done _ _ _ _ _ Hclr). reflexivity. }
    change (is_terminator x00) with false. cbn iota.
    rewrite (bind_done _ _ _ _ _ (store_run pbuf i x00 _ Hi)).
    simpl. rewrite Hins. reflexivity.
  - simpl. unfold m2. apply take_app_length'. rewrite length_replicate. reflexivity.
  - simpl. unfold m2. rewrite drop_app_length' by (rewrite length_replicate; reflexivity).
    rewrite Hm1. reflexivity.
Qed.

Lemma GetPass_loop_read_error_witness :
  exists s2,
    GetPass_loop (S 2) sample_file (mkslice 4 4) 1 x00
      (mkState (sample_tty [] [5]) (replicate 4 x01)) =
      GetPass_loop 2 sample_file (mkslice 4 4) (1 + 1) x00 s2 /\
    os s2 = os (snd (File_Read1 sample_file (mkState (sample_tty [] [5]) (replicate 4 x01)))) /\
    take (1 + 1) (mem s2) = replicate (1 + 1) x00 /\
    drop (1 + 1) (mem s2) = drop (1 + 1) (mem (mkState (sample_tty [] [5]) (replicate 4 x01))).
Proof.
  apply (GetPass_loop_read_error 2 1 sample_file (mkslice 4 4) x00
           (mkState (sample_tty [] [5]) (replicate 4 x01))
           (snd (File_Read1 sample_file (mkState (sample_tty [] [5]) (replicate 4 x01))))
           (PathError "read" "/dev/tty" (Errno 5))).
  - vm_compute. reflexivity.
  - simpl. lia.
  - simpl. lia.
  - simpl. lia.
Defined.

Lemma defer_Set_done {A : Type} (t : Termios) (f : File) (body : Go A)
    (s s1 s2 : State) (r : Outcome A) (e : option error) :
  body s = (r, s1) -> Termios_Set t f s1 = (Done e, s2) ->
  defer (Termios_Set t f) body s = (r, s2).
Proof. intros H Hd. unfold defer. rewrite H, Hd. reflexivity. Qed.

(** X4: a line that fits.  On a terminal that answers, with pending input
    [pw], a terminator and [rest], where [pw] has no terminator and is
    shorter than the buffer, [GetPass] returns exactly [pw] as a view on
    the buffer and leaves the bytes of the array from the terminator's
    slot on as supplied.  The kernel calls are, in this order: the
    attribute query, the attribute write, one write of the prompt, one
    read per byte of [pw] and one for the terminator, and the restoring
    attribute write.  Afterwards [rest] is still pending, and the terminal
    holds what [Attr] captured: the attributes it had, with the two speed
    fields masked. *)
Theorem GetPass_line nbCc ECHO prompt fd name k pw term rest vis spare w :
  tty_ready fd k (pw ++ term :: rest) w ->
  no_terminator pw ->
  is_terminator term = true ->
  (length pw < length vis)%nat ->
  exists out s',
    GetPass nbCc ECHO prompt (Some (mkfile fd name))
      (mkslice (length vis) (length (vis ++ spare))) (mkState w (vis ++ spare)) =
      (Done (Some out, None), s') /\
    bytes_of out s' = pw /\
    drop (length pw) (mem s') = drop (length pw) (vis ++ spare) /\
    tty_ready fd (masked k) rest (os s') /\
    new_events (mkState w (vis ++ spare)) s' =
      [ev_ok (SysIoctl fd TCGETS); ev_ok (SysIoctl fd TCSETS);
       ev_ok (SysWrite fd (list_byte_of_string prompt))] ++
      replicate (length pw + 1) (ev_ok (SysRead fd)) ++
      [ev_ok (SysIoctl fd TCSETS)].
Proof.
  intros Hr Hnt Ht Hlen.
  set (pbuf := mkslice (length vis) (length (vis ++ spare))).
  set (s := mkState w (vis ++ spare)).
  destruct (Attr_ready nbCc fd name k _ s Hr) as (s1 & Ha & Hr1 & Hm1 & Ht1).
  set (noecho := with_Lflag (Z.ldiff (Lflag (masked k)) ECHO) (masked k)).
  destruct (Termios_Set_ready fd name _ _ noecho s1 Hr1) as (s2 & Hs & Hr2 & Hm2 & Ht2).
  destruct (File_Write_ready fd name _ _ (list_byte_of_string prompt) s2 Hr2)
    as (s3 & Hw & Hr3 & Hm3 & Ht3).
  assert (Hmem3 : mem s3 = vis ++ spare) by (rewrite Hm3, Hm2, Hm1; reflexivity).
  assert (H1 : (length pw <= length vis)%nat) by lia.
  assert (H2 : (0 + length pw <= len pbuf)%nat) by (simpl; lia).
  assert (H3 : (len pbuf <= length (mem s3))%nat)
    by (rewrite Hmem3, length_app; simpl; lia).
  destruct (GetPass_loop_stores pw (length vis) 0 s3 fd name noecho (term :: rest) pbuf
              Hnt H1 H2 H3 Hr3) as (s4 & Hl & Hr4 & Hm4 & Ht4).
  destruct (length vis - length pw)%nat as [|n] eqn:En; [lia|].
  assert (H5 : (0 + length pw <= cap pbuf)%nat) by (simpl; rewrite length_app; lia).
  destruct (GetPass_loop_terminator n (0 + length pw) s4 fd name noecho term rest pbuf
              Ht H5 Hr4) as (s5 & Hl5 & Hr5 & Hm5 & Ht5).
  destruct (Termios_Set_ready fd name _ _ (masked k) s5 Hr5)
    as (s6 & Hs6 & Hr6 & Hm6 & Ht6).
  assert (Hmem6 : mem s6 = pw ++ drop (length pw) (vis ++ spare))
    by (rewrite Hm6, Hm5, Hm4, Hmem3; reflexivity).
  eexists; exists s6. split; [|split; [|split; [|split; [exact Hr6|]]]].
  - unfold GetPass. rewrite (bind_done _ _ _ _ _ Ha). cbn beta iota.
    apply (defer_Set_done _ _ _ _ s5 s6 _ None); [|exact Hs6]. fold noecho.
    rewrite (bind_done _ _ _ _ _ Hs). cbn beta iota.
    rewrite (bind_done _ _ _ _ _ Hw). cbn beta iota.
    rewrite Nat.sub_0_r. change (len pbuf) with (length vis).
    fold pbuf. rewrite Hl, Hl5. reflexivity.
  - unfold bytes_of. simpl. rewrite Hmem6. apply take_app_length.
  - rewrite Hmem6. apply drop_app_length.
  - apply new_events_app. rewrite Ht6, Ht5, Ht4, Ht3, Ht2, Ht1. simpl.
    rewrite replicate_add. simpl. rewrite <- !app_assoc. reflexivity.
Qed.

Lemma GetPass_line_witness :
  exists out s',
    GetPass 20 8 "Password: " (Some (mkfile 3 "/dev/tty"))
      (mkslice (length (replicate 8 x01)) (length (replicate 8 x01 ++ [x01])))
      (mkState (sample_tty (list_byte_of_string "s3cret" ++ x0d :: [x0a]) [])
               (replicate 8 x01 ++ [x01])) =
      (Done (Some out, None), s') /\
    bytes_of out s' = list_byte_of_string "s3cret" /\
    drop (length (list_byte_of_string "s3cret")) (mem s') =
      drop (length (list_byte_of_string "s3cret")) (replicate 8 x01 ++ [x01]) /\
    tty_ready 3 (masked sample_tio) [x0a] (os s') /\
    new_events
      (mkState (sample_tty (list_byte_of_string "s3cret" ++ x0d :: [x0a]) [])
               (replicate 8 x01 ++ [x01])) s' =
      [ev_ok (SysIoctl 3 TCGETS); ev_ok (SysIoctl 3 TCSETS);
       ev_ok (SysWrite 3 (list_byte_of_string "Password: "))] ++
      replicate (length (list_byte_of_string "s3cret") + 1) (ev_ok (SysRead 3)) ++
      [ev_ok (SysIoctl 3 TCSETS)].
Proof.
  apply (GetPass_line 20 8 "Password: " 3 "/dev/tty" sample_tio
           (list_byte_of_string "s3cret") x0d [x0a] (replicate 8 x01) [x01]).
  - split; [reflexivity|]. eexists. split; [vm_compute; reflexivity|].
    split; reflexivity.
  - repeat constructor.
  - reflexivity.
  - simpl. lia.
Defined.

(** X5: exhaustion with capacity to spare.  When the input fills the
    buffer without a terminator and the slice has at least one byte of
    capacity behind its length, [GetPass] returns the exhaustion error
    with a nil slice; every byte of the buffer is zero, and so is the
    first byte behind it, which the call overwrites although it lies
    outside the slice it was given.  The bytes after that one are
    untouched. *)
Theorem GetPass_exhausted_with_spare nbCc ECHO prompt fd name k pw rest vis c spare w :
  tty_ready fd k (pw ++ rest) w ->
  no_terminator pw ->
  length pw = length vis ->
  exists s',
    GetPass nbCc ECHO prompt (Some (mkfile fd name))
      (mkslice (length vis) (length (vis ++ c :: spare)))
      (mkState w (vis ++ c :: spare)) =
      (Done (None, Some (errorString "ran out of bufferspace")), s') /\
    take (length vis) (mem s') = replicate (length vis) x00 /\
    mem s' !! length vis = Some x00 /\
    drop (S (length vis)) (mem s') = spare.
Proof.
  intros Hr Hnt Hlen.
  destruct (GetPass_exhausted_spare nbCc ECHO prompt fd name k pw rest vis c spare w
              Hr Hnt Hlen) as (s' & Hg & Hm).
  exists s'. split; [exact Hg|]. rewrite Hm, replicate_add. simpl.
  rewrite <- app_assoc. simpl. repeat split.
  - apply take_app_length'. rewrite length_replicate. reflexivity.
  - rewrite lookup_app_r by (rewrite length_replicate; lia).
    rewrite length_replicate, Nat.sub_diag. reflexivity.
  - change (replicate (length vis) x00 ++ x00 :: spare)
      with (replicate (length vis) x00 ++ [x00] ++ spare).
    rewrite app_assoc. apply drop_app_length'.
    rewrite length_app, length_replicate. simpl. lia.
Qed.

Lemma GetPass_exhausted_with_spare_witness :
  exists s',
    GetPass 20 8 "Password: " (Some (mkfile 3 "/dev/tty"))
      (mkslice (length (replicate 4 x01)) (length (replicate 4 x01 ++ x02 :: [x03])))
      (mkState (sample_tty (list_byte_of_string "abcd" ++ list_byte_of_string "ef") [])
               (replicate 4 x01 ++ x02 :: [x03])) =
      (Done (None, Some (errorString "ran out of bufferspace")), s') /\
    take (length (replicate 4 x01)) (mem s') = replicate (length (replicate 4 x01)) x00 /\
    mem s' !! length (replicate 4 x01) = Some x00 /\
    drop (S (length (replicate 4 x01))) (mem s') = [x03].
Proof.
  apply (GetPass_exhausted_with_spare 20 8 "Password: " 3 "/dev/tty" sample_tio
           (list_byte_of_string "abcd") (list_byte_of_string "ef")
           (replicate 4 x01) x02 [x03]).
  - split; [reflexivity|]. eexists. split; [vm_compute; reflexivity|].
    split; reflexivity.
  - repeat constructor.
  - reflexivity.
Defined.

(** ** Querying and writing attributes *)

(** The attribute query on something that is not a terminal fails,
    whatever is scheduled, and leaves the descriptor table alone. *)
Lemma tcgets_not_a_tty fd a w :
  not_a_tty fd w ->
  exists e w',
    sys_ioctl fd TCGETS (ArgTermios a) w = ((e, ArgTermios a), w') /\
    e <> 0 /\
    fdtab w' = fdtab w /\
    trace w' = trace w ++ [mkEvent (SysIoctl fd TCGETS) e].
Proof.
  unfold not_a_tty, sys_ioctl, pop_fault. simpl. intros Hn.
  destruct (Z.eqb_spec (hd 0 (faults w)) 0) as [Hz|Hnz]; simpl.
  - destruct (fdtab w !! fd) as [n|] eqn:Hl.
    + unfold ioctl_node. change (TCGETS =? TCGETS) with true. cbn iota. rewrite Hn.
      exists ENOTTY. eexists. split; [reflexivity|]. simpl.
      split; [discriminate|]. split; [apply insert_id; exact Hl | reflexivity].
    + exists EBADF. eexists. split; [reflexivity|]. simpl.
      split; [discriminate|]. auto.
  - eexists; eexists. split; [reflexivity|]. simpl. auto.
Qed.

(** X6: on a handle that is not a terminal (a plain file, a closed
    descriptor) [GetPass] fails with the error number of the attribute
    query, whatever the kernel would do next, and has no other effect:
    that query is the only kernel call, so no prompt is written and
    nothing is read, and the buffer and the descriptor table are as
    before. *)
Theorem GetPass_not_a_tty nbCc ECHO prompt f pbuf s :
  not_a_tty (File_Fd f) (os s) ->
  exists e s',
    GetPass nbCc ECHO prompt f pbuf s = (Done (None, Some (Errno e)), s') /\
    e <> 0 /\
    new_events s s' = [mkEvent (SysIoctl (File_Fd f) TCGETS) e] /\
    mem s' = mem s /\
    fdtab (os s') = fdtab (os s).
Proof.
  intros Hn.
  destruct (tcgets_not_a_tty (File_Fd f) (Termios_zero nbCc) (os s) Hn)
    as (e & w' & Hk & He & Hf & Ht).
  exists e, (set_os w' s). split; [|split; [exact He|split; [|split]]].
  - assert (Ha : Attr nbCc f s =
                 (Done (Termios_zero nbCc, Some (Errno e)), set_os w' s)).
    { unfold Attr. cbv zeta.
      rewrite (bind_done _ _ _ _ _ (syscall_run _ _ _ _ Hk)).
      destruct (Z.eqb_spec e 0); [contradiction|]. reflexivity. }
    unfold GetPass. rewrite (bind_done _ _ _ _ _ Ha). reflexivity.
  - apply new_events_app. exact Ht.
  - reflexivity.
  - exact Hf.
Qed.

Lemma GetPass_not_a_tty_witness :
  exists e s',
    GetPass 20 8 "Password: " sample_file (mkslice 4 4)
      (mkState (sample_plain []) (replicate 4 x01)) =
      (Done (None, Some (Errno e)), s') /\
    e <> 0 /\
    new_events (mkState (sample_plain []) (replicate 4 x01)) s' =
      [mkEvent (SysIoctl (File_Fd sample_file) TCGETS) e] /\
    mem s' = mem (mkState (sample_plain []) (replicate 4 x01)) /\
    fdtab (os s') = fdtab (os (mkState (sample_plain []) (replicate 4 x01))).
Proof.
  apply (GetPass_not_a_tty 20 8 "Password: " sample_file (mkslice 4 4)
           (mkState (sample_plain []) (replicate 4 x01))).
  vm_compute. reflexivity.
Defined.

(** X7: [Attr] and [Isatty] only look: whatever the handle and whatever
    the kernel answers, the descriptor table (and with it the attributes
    the kernel holds) and the caller's memory are as before, and the one
    kernel call made is the attribute query on the handle's descriptor. *)
Theorem Attr_only_queries nbCc f s :
  (exists e,
     new_events s (snd (Attr nbCc f s)) = [mkEvent (SysIoctl (File_Fd f) TCGETS) e]) /\
  fdtab (os (snd (Attr nbCc f s))) = fdtab (os s) /\
  mem (snd (Attr nbCc f s)) = mem s /\
  snd (Isatty nbCc f s) = snd (Attr nbCc f s).
Proof.
  destruct (sys_ioctl_cases (File_Fd f) TCGETS (ArgTermios (Termios_zero nbCc)) (os s))
    as (e & out & w' & Hk & Ht & _ & Hf).
  assert (Ha : snd (Attr nbCc f s) = set_os w' s).
  { unfold Attr. cbv zeta. rewrite (bind_done _ _ _ _ _ (syscall_run _ _ _ _ Hk)).
    destruct (negb (e =? 0)); reflexivity. }
  repeat split.
  - exists e. rewrite Ha. apply new_events_app. exact Ht.
  - rewrite Ha. apply Hf. discriminate.
  - rewrite Ha. reflexivity.
  - destruct (Attr_total nbCc f s) as (t & err & Hat).
    unfold Isatty. rewrite (bind_done _ _ _ _ _ Hat). reflexivity.
Qed.

(** A successful attribute write leaves the kernel holding what was
    written. *)
Lemma tcsets_success fd t out w w' :
  sys_ioctl fd TCSETS (ArgTermios t) w = ((0, out), w') ->
  exists n, fdtab w' !! fd = Some n /\ n_tio n = Some t.
Proof.
  unfold sys_ioctl, pop_fault. simpl.
  destruct (Z.eqb_spec (hd 0 (faults w)) 0) as [Hz|Hnz]; simpl.
  - destruct (fdtab w !! fd) as [n|]; [|unfold EBADF; intros H; discriminate H].
    unfold ioctl_node. change (TCSETS =? TCGETS) with false.
    change (TCSETS =? TCSETS) with true. cbn iota.
    destruct (n_tio n); [|unfold ENOTTY; intros H; discriminate H].
    intros H; inversion H; subst. simpl. rewrite lookup_insert_eq. eauto.
  - intros H; inversion H; contradiction.
Qed.

Lemma Termios_Set_success t f s s1 :
  Termios_Set t f s = (Done None, s1) ->
  exists n, fdtab (os s1) !! File_Fd f = Some n /\ n_tio n = Some t.
Proof.
  unfold Termios_Set, bind, syscall.
  destruct (sys_ioctl (File_Fd f) TCSETS (ArgTermios t) (os s)) as [[e out] w'] eqn:Hk.
  destruct (Z.eqb_spec e 0) as [He|He]; simpl; intros H; inversion H; subst.
  exact (tcsets_success _ _ _ _ _ Hk).
Qed.

Lemma Attr_success nbCc f s r s1 :
  Attr nbCc f s = (Done (r, None), s1) ->
  exists n k, fdtab (os s) !! File_Fd f = Some n /\ n_tio n = Some k /\ r = masked k.
Proof.
  unfold Attr, bind, syscall.
  destruct (sys_ioctl (File_Fd f) TCGETS (ArgTermios (Termios_zero nbCc)) (os s))
    as [[e out] w] eqn:Hk.
  destruct (tcgets_cases _ _ _ _ _ _ Hk) as [[Hne Ho]|[He (n & k & Hn & Hkk & Ho)]]; subst.
  - destruct (Z.eqb_spec e 0) as [|_]; [contradiction|]. discriminate.
  - simpl. intros H; inversion H; subst. exists n, k. auto.
Qed.

Lemma masked_idem (k : Termios) : masked (masked k) = masked k.
Proof.
  unfold masked, with_speeds. simpl.
  rewrite <- !Z.land_assoc, !Z.land_diag. reflexivity.
Qed.

(** X9: read, write back, read again.  Attributes obtained from [Attr],
    written back unchanged with [Set] and read again with [Attr] come out
    the same: the masking of the speeds is applied once and for all. *)
Theorem Attr_Set_Attr nbCc f s t s1 s2 r s3 :
  Attr nbCc f s = (Done (t, None), s1) ->
  Termios_Set t f s1 = (Done None, s2) ->
  Attr nbCc f s2 = (Done (r, None), s3) ->
  r = t.
Proof.
  intros Ha Hs Ha'.
  destruct (Attr_success _ _ _ _ _ Ha) as (n & k & _ & _ & Ht).
  destruct (Termios_Set_success _ _ _ _ Hs) as (n1 & Hn1 & Ht1).
  destruct (Attr_success _ _ _ _ _ Ha') as (n2 & k2 & Hn2 & Hk2 & Hr).
  rewrite Hn1 in Hn2. inversion Hn2; subst n2. rewrite Ht1 in Hk2.
  inversion Hk2; subst k2. subst r t. apply masked_idem.
Qed.

Lemma Attr_Set_Attr_witness : masked sample_tio = masked sample_tio.
Proof.
  apply (Attr_Set_Attr 20 sample_file (mkState (sample_tty [] []) [])
           (masked sample_tio)
           (snd (Attr 20 sample_file (mkState (sample_tty [] []) [])))
           (snd (Termios_Set (masked sample_tio) sample_file
                   (snd (Attr 20 sample_file (mkState (sample_tty [] []) [])))))
           (masked sample_tio)
           (snd (Attr 20 sample_file
                   (snd (Termios_Set (masked sample_tio) sample_file
                           (snd (Attr 20 sample_file (mkState (sample_tty [] []) [])))))))).
  - vm_compute. reflexivity.
  - vm_compute. reflexivity.
  - vm_compute. reflexivity.
Defined.

Lemma tcgets_answers fd a n k w :
  hd 0 (faults w) = 0 -> fdtab w !! fd = Some n -> n_tio n = Some k ->
  exists w', sys_ioctl fd TCGETS (ArgTermios a) w = ((0, ArgTermios k), w').
Proof.
  intros Hz Hn Hk. unfold sys_ioctl, pop_fault. simpl. rewrite Hz. simpl.
  rewrite Hn. unfold ioctl_node. change (TCGETS =? TCGETS) with true. cbn iota.
  rewrite Hk. eexists. reflexivity.
Qed.

(** X10: when the kernel serves the next call as it comes, [Isatty] is
    true exactly for a handle whose descriptor is open on a terminal; a
    plain file and a closed descriptor give false. *)
Theorem Isatty_decides nbCc f s :
  hd 0 (faults (os s)) = 0 ->
  (fst (Isatty nbCc f s) = Done true <->
   exists n k, fdtab (os s) !! File_Fd f = Some n /\ n_tio n = Some k) /\
  (not_a_tty (File_Fd f) (os s) -> fst (Isatty nbCc f s) = Done false).
Proof.
  intros Hz. split; [split|].
  - intros H. destruct (Attr_total nbCc f s) as (t & err & Ha).
    unfold Isatty in H. rewrite (bind_done _ _ _ _ _ Ha) in H.
    destruct err; [discriminate H|].
    destruct (Attr_success _ _ _ _ _ Ha) as (n & k & Hn & Hk & _). eauto.
  - intros (n & k & Hn & Hk).
    destruct (tcgets_answers (File_Fd f) (Termios_zero nbCc) n k (os s) Hz Hn Hk)
      as (w' & Hq).
    unfold Isatty, Attr. cbv zeta.
    unfold bind at 1. unfold bind at 1.
    rewrite (syscall_run _ _ _ _ Hq). reflexivity.
  - intros Hn.
    destruct (tcgets_not_a_tty (File_Fd f) (Termios_zero nbCc) (os s) Hn)
      as (e & w' & Hk & He & _).
    unfold Isatty, Attr. cbv zeta.
    unfold bind at 1. unfold bind at 1.
    rewrite (syscall_run _ _ _ _ Hk).
    destruct (Z.eqb_spec e 0); [contradiction|]. reflexivity.
Qed.

Lemma Isatty_decides_witness :
  (fst (Isatty 20 sample_file (mkState (sample_plain []) [])) = Done true <->
   exists n k,
     fdtab (os (mkState (sample_plain []) [])) !! File_Fd sample_file = Some n /\
     n_tio n = Some k) /\
  (not_a_tty (File_Fd sample_file) (os (mkState (sample_plain []) [])) ->
   fst (Isatty 20 sample_file (mkState (sample_plain []) [])) = Done false).
Proof.
  apply (Isatty_decides 20 sample_file (mkState (sample_plain []) [])).
  reflexivity.
Defined.

(** ** The slave name *)

(** A request to a ready master that the kernel serves without touching
    the node. *)
Lemma pty_ioctl_ready fd info cmd arg out w :
  pty_ready fd info w ->
  (forall n, n_pty n = Some info -> ioctl_node cmd arg n = (0, out, n)) ->
  exists w',
    sys_ioctl fd cmd arg w = ((0, out), w') /\
    pty_ready fd info w' /\
    fdtab w' = fdtab w /\ devs w' = devs w /\ next_fd w' = next_fd w /\
    trace w' = trace w ++ [ev_ok (SysIoctl fd cmd)].
Proof.
  intros [Hf (n & Hn & Hp)] Hio.
  destruct w as [tab dv nfd fl tr]; simpl in *; subst fl.
  unfold sys_ioctl, pop_fault; simpl. rewrite Hn, (Hio n Hp).
  eexists. split; [reflexivity|]. simpl.
  rewrite (insert_id tab fd n Hn).
  split; [split; [reflexivity | exists n; simpl; rewrite ?lookup_insert_eq; auto]
         | repeat split].
Qed.

Lemma gname_node info b n :
  n_pty n = Some info ->
  ioctl_node TIOCPTYGNAME (ArgBytes b) n = (0, ArgBytes (overlay (pty_name info) b), n).
Proof.
  intros Hp. unfold ioctl_node.
  change (TIOCPTYGNAME =? TCGETS) with false.
  change (TIOCPTYGNAME =? TCSETS) with false.
  change (TIOCPTYGNAME =? TIOCGPTN) with false.
  change (TIOCPTYGNAME =? TIOCPTYGNAME) with true. cbn iota.
  rewrite Hp. reflexivity.
Qed.

Lemma grant_node info n :
  n_pty n = Some info -> ioctl_node TIOCPTYGRANT ArgNone n = (0, ArgNone, n).
Proof.
  intros Hp. unfold ioctl_node.
  change (TIOCPTYGRANT =? TCGETS) with false.
  change (TIOCPTYGRANT =? TCSETS) with false.
  change (TIOCPTYGRANT =? TIOCGPTN) with false.
  change (TIOCPTYGRANT =? TIOCPTYGNAME) with false.
  change (TIOCPTYGRANT =? TIOCPTYGRANT) with true. cbn iota.
  rewrite Hp. reflexivity.
Qed.

Lemma unlk_node info n :
  n_pty n = Some info -> ioctl_node TIOCPTYUNLK ArgNone n = (0, ArgNone, n).
Proof.
  intros Hp. unfold ioctl_node.
  change (TIOCPTYUNLK =? TCGETS) with false.
  change (TIOCPTYUNLK =? TCSETS) with false.
  change (TIOCPTYUNLK =? TIOCGPTN) with false.
  change (TIOCPTYUNLK =? TIOCPTYGNAME) with false.
  change (TIOCPTYUNLK =? TIOCPTYGRANT) with false.
  change (TIOCPTYUNLK =? TIOCPTYUNLK) with true. cbn iota.
  rewrite Hp. reflexivity.
Qed.

Lemma gptn_node info n :
  n_pty n = Some info ->
  ioctl_node TIOCGPTN (ArgUint 0) n = (0, ArgUint (low32 (pty_index info)), n).
Proof.
  intros Hp. unfold ioctl_node.
  change (TIOCGPTN =? TCGETS) with false.
  change (TIOCGPTN =? TCSETS) with false.
  change (TIOCGPTN =? TIOCGPTN) with true. cbn iota.
  rewrite Hp. reflexivity.
Qed.

(** What [ptsname] does on a ready master, by what the reply scans to. *)
Lemma ptsname_ready fd name info s :
  pty_ready fd info (os s) ->
  exists s',
    ptsname (Some (mkfile fd name)) s =
      (Done match until_nul (overlay (pty_name info)
                               (replicate (Z.to_nat (_IOC_PARM_LEN TIOCPTYGNAME)) x00)) with
            | Some pre => (string_of_list_byte pre, None)
            | None =>
                (EmptyString,
                 Some (errorString "TIOCPTYGNAME string not NUL-terminated"))
            end, s') /\
    pty_ready fd info (os s') /\
    fdtab (os s') = fdtab (os s) /\ devs (os s') = devs (os s) /\
    next_fd (os s') = next_fd (os s) /\ mem s' = mem s /\
    trace (os s') = trace (os s) ++ [ev_ok (SysIoctl fd TIOCPTYGNAME)].
Proof.
  intros Hr.
  set (buf := replicate (Z.to_nat (_IOC_PARM_LEN TIOCPTYGNAME)) x00).
  destruct (pty_ioctl_ready fd info TIOCPTYGNAME (ArgBytes buf) _ (os s) Hr
              (gname_node info buf)) as (w' & Hk & Hr' & Hrest).
  exists (set_os w' s). split; [|simpl; tauto].
  unfold ptsname, ioctl. cbv zeta. fold buf. simpl File_Fd.
  unfold bind at 1. unfold bind at 1. rewrite (syscall_run _ _ _ _ Hk).
  cbn beta iota. change (negb (0 =? 0)) with false. cbn iota.
  unfold ret at 1. cbn beta iota.
  destruct (until_nul (overlay (pty_name info) buf)); reflexivity.
Qed.

(** X11: the name of the slave.  On a ready master whose reply spells a
    name (no NUL in it, shorter than the 128-byte buffer, and followed by
    a NUL or by nothing), [ptsname] returns exactly that name with a nil
    error, and changes nothing in the kernel. *)
Theorem ptsname_returns_name fd name info pre s :
  pty_ready fd info (os s) ->
  reply_names (pty_name info) pre ->
  exists s',
    ptsname (Some (mkfile fd name)) s = (Done (string_of_list_byte pre, None), s') /\
    fdtab (os s') = fdtab (os s) /\
    new_events s s' = [ev_ok (SysIoctl fd TIOCPTYGNAME)].
Proof.
  intros Hr Hnm.
  destruct (ptsname_ready fd name info s Hr) as (s' & Hp & _ & Hf & _ & _ & _ & Ht).
  rewrite (overlay_names _ _ Hnm) in Hp.
  exists s'. split; [exact Hp|]. split; [exact Hf|]. apply new_events_app. exact Ht.
Qed.

Lemma ptsname_returns_name_witness :
  exists s',
    ptsname (Some (mkfile 5 "/dev/ptmx")) (mkState sample_master []) =
      (Done (string_of_list_byte (list_byte_of_string "/dev/ttys007"), None), s') /\
    fdtab (os s') = fdtab (os (mkState sample_master [])) /\
    new_events (mkState sample_master []) s' = [ev_ok (SysIoctl 5 TIOCPTYGNAME)].
Proof.
  apply (ptsname_returns_name 5 "/dev/ptmx"
           (mkPtyInfo 7 (list_byte_of_string "/dev/ttys007"))
           (list_byte_of_string "/dev/ttys007") (mkState sample_master [])).
  - split; [reflexivity|]. eexists. split; [vm_compute; reflexivity|]. reflexivity.
  - split; [repeat constructor|]. split; [vm_compute; lia|]. left. reflexivity.
Defined.

(** X12: a reply that fills the 128-byte buffer without a NUL makes
    [ptsname] fail with its own error and an empty name; it never reads
    past the buffer. *)
Theorem ptsname_unterminated fd name info s :
  pty_ready fd info (os s) ->
  (Z.to_nat (_IOC_PARM_LEN TIOCPTYGNAME) <= length (pty_name info))%nat ->
  no_nul (take (Z.to_nat (_IOC_PARM_LEN TIOCPTYGNAME)) (pty_name info)) ->
  exists s',
    ptsname (Some (mkfile fd name)) s =
      (Done (EmptyString, Some (errorString "TIOCPTYGNAME string not NUL-terminated")), s').
Proof.
  intros Hr Hlen Hnn.
  destruct (ptsname_ready fd name info s Hr) as (s' & Hp & _).
  exists s'. rewrite Hp. unfold overlay.
  rewrite length_replicate, drop_replicate.
  replace (Z.to_nat (_IOC_PARM_LEN TIOCPTYGNAME) - length (pty_name info))%nat
    with 0%nat by lia.
  simpl replicate. rewrite app_nil_r, (until_nul_none _ Hnn). reflexivity.
Qed.

Lemma ptsname_unterminated_witness :
  exists s',
    ptsname (Some (mkfile 5 "/dev/ptmx")) (mkState sample_long_master []) =
      (Done (EmptyString, Some (errorString "TIOCPTYGNAME string not NUL-terminated")), s').
Proof.
  apply (ptsname_unterminated 5 "/dev/ptmx" (mkPtyInfo 7 (replicate 130 "a"%byte))
           (mkState sample_long_master [])).
  - split; [reflexivity|]. eexists. split; [vm_compute; reflexivity|]. reflexivity.
  - vm_compute. lia.
  - vm_compute. repeat constructor.
Defined.

(** ** A pair from allocation to close *)

Lemma open_ready path n w :
  faults w = [] -> devs w !! path = Some n ->
  exists w',
    sys_open path w = ((0, next_fd w), w') /\
    faults w' = [] /\
    fdtab w' = <[next_fd w := n]> (fdtab w) /\
    devs w' = devs w /\ next_fd w' = next_fd w + 1 /\
    trace w' = trace w ++ [ev_ok (SysOpen path)].
Proof.
  intros Hf Hd. destruct w as [tab dv nfd fl tr]; simpl in *; subst fl.
  unfold sys_open, pop_fault; simpl. rewrite Hd.
  eexists. split; [reflexivity|]. simpl. repeat split.
Qed.

Lemma close_ready fd n w :
  faults w = [] -> fdtab w !! fd = Some n ->
  exists w',
    sys_close fd w = (0, w') /\
    faults w' = [] /\
    fdtab w' = delete fd (fdtab w) /\
    trace w' = trace w ++ [ev_ok (SysClose fd)].
Proof.
  intros Hf Hn. destruct w as [tab dv nfd fl tr]; simpl in *; subst fl.
  unfold sys_close, pop_fault; simpl. rewrite Hn.
  eexists. split; [reflexivity|]. simpl. repeat split.
Qed.

Lemma os_OpenFile_ready path n s :
  faults (os s) = [] -> devs (os s) !! path = Some n ->
  exists s',
    os_OpenFile path s = (Done (Some (mkfile (next_fd (os s)) path), None), s') /\
    faults (os s') = [] /\
    fdtab (os s') = <[next_fd (os s) := n]> (fdtab (os s)) /\
    devs (os s') = devs (os s) /\ next_fd (os s') = next_fd (os s) + 1 /\
    trace (os s') = trace (os s) ++ [ev_ok (SysOpen path)].
Proof.
  intros Hf Hd. destruct (open_ready path n (os s) Hf Hd) as (w' & Hk & Hrest).
  exists (set_os w' s). split; [|exact Hrest].
  unfold os_OpenFile.
  rewrite (bind_done _ _ _ _ _ (retry_once _ _ _ _ _ Hk ltac:(discriminate))).
  reflexivity.
Qed.

Lemma File_Close_ready h n s :
  faults (os s) = [] -> fdtab (os s) !! file_fd h = Some n ->
  exists s',
    File_Close h s = (Done None, s') /\
    faults (os s') = [] /\
    fdtab (os s') = delete (file_fd h) (fdtab (os s)) /\
    trace (os s') = trace (os s) ++ [ev_ok (SysClose (file_fd h))].
Proof.
  intros Hf Hn. destruct (close_ready (file_fd h) n (os s) Hf Hn) as (w' & Hk & Hrest).
  exists (set_os w' s). split; [|exact Hrest].
  unfold File_Close. rewrite Hn.
  rewrite (bind_done _ _ _ _ _ (syscall_run _ _ _ _ Hk)).
  reflexivity.
Qed.

Lemma pty_request_ready fd name info cmd (run : File -> Go (option error)) s :
  (forall f st, run f st = bind (ioctl (File_Fd f) cmd ArgNone)
                                (fun '(err, _) => ret err) st) ->
  (forall n, n_pty n = Some info -> ioctl_node cmd ArgNone n = (0, ArgNone, n)) ->
  pty_ready fd info (os s) ->
  exists s',
    run (Some (mkfile fd name)) s = (Done None, s') /\
    pty_ready fd info (os s') /\
    fdtab (os s') = fdtab (os s) /\ devs (os s') = devs (os s) /\
    next_fd (os s') = next_fd (os s) /\
    trace (os s') = trace (os s) ++ [ev_ok (SysIoctl fd cmd)].
Proof.
  intros Hrun Hnode Hr.
  destruct (pty_ioctl_ready fd info cmd ArgNone _ (os s) Hr Hnode) as (w' & Hk & Hrest).
  exists (set_os w' s). split; [|exact Hrest].
  rewrite Hrun. unfold ioctl. simpl File_Fd.
  unfold bind at 1. unfold bind at 1. rewrite (syscall_run _ _ _ _ Hk). reflexivity.
Qed.

(** On a kernel that serves every call, with "/dev/ptmx" a master whose
    reply names an existing device, [OpenPTY] succeeds. *)
Lemma OpenPTY_ready m info pre sl s :
  faults (os s) = [] ->
  devs (os s) !! "/dev/ptmx"%string = Some m ->
  n_pty m = Some info ->
  reply_names (pty_name info) pre ->
  devs (os s) !! string_of_list_byte pre = Some sl ->
  exists s',
    OpenPTY s =
      (Done (Some (mkPTY (Some (mkfile (next_fd (os s)) "/dev/ptmx"))
                         (Some (mkfile (next_fd (os s) + 1) (string_of_list_byte pre)))),
             None), s') /\
    faults (os s') = [] /\
    fdtab (os s') =
      <[next_fd (os s) + 1 := sl]> (<[next_fd (os s) := m]> (fdtab (os s))) /\
    new_events s s' =
      [ev_ok (SysOpen "/dev/ptmx");
       ev_ok (SysIoctl (next_fd (os s)) TIOCPTYGNAME);
       ev_ok (SysIoctl (next_fd (os s)) TIOCPTYGRANT);
       ev_ok (SysIoctl (next_fd (os s)) TIOCPTYUNLK);
       ev_ok (SysOpen (string_of_list_byte pre))].
Proof.
  intros Hf Hd Hp Hnm Hsl. set (fd := next_fd (os s)).
  destruct (os_OpenFile_ready "/dev/ptmx" m s Hf Hd)
    as (s1 & Ho1 & Hf1 & Ht1 & Hd1 & Hn1 & Htr1).
  fold fd in Ho1, Ht1, Hn1.
  assert (Hr1 : pty_ready fd info (os s1)).
  { split; [exact Hf1|]. exists m. rewrite Ht1, lookup_insert_eq. auto. }
  destruct (ptsname_ready fd "/dev/ptmx" info s1 Hr1)
    as (s2 & Hp2 & Hr2 & Ht2 & Hd2 & Hn2 & _ & Htr2).
  rewrite (overlay_names _ _ Hnm) in Hp2.
  destruct (pty_request_ready fd "/dev/ptmx" info TIOCPTYGRANT grantpt s2
              ltac:(reflexivity) (grant_node info) Hr2)
    as (s3 & Hg & Hr3 & Ht3 & Hd3 & Hn3 & Htr3).
  destruct (pty_request_ready fd "/dev/ptmx" info TIOCPTYUNLK unlockpt s3
              ltac:(reflexivity) (unlk_node info) Hr3)
    as (s4 & Hu & Hr4 & Ht4 & Hd4 & Hn4 & Htr4).
  assert (Hsl4 : devs (os s4) !! string_of_list_byte pre = Some sl)
    by (rewrite Hd4, Hd3, Hd2, Hd1; exact Hsl).
  destruct (os_OpenFile_ready (string_of_list_byte pre) sl s4 (proj1 Hr4) Hsl4)
    as (s5 & Ho5 & Hf5 & Ht5 & _ & _ & Htr5).
  assert (Hfd4 : next_fd (os s4) = fd + 1) by (rewrite Hn4, Hn3, Hn2; exact Hn1).
  rewrite Hfd4 in Ho5, Ht5.
  exists s5. split; [|split; [exact Hf5|split]].
  - unfold OpenPTY. rewrite (bind_done _ _ _ _ _ Ho1). cbn beta iota.
    rewrite (bind_done _ _ _ _ _ Hp2). cbn beta iota.
    rewrite (bind_done _ _ _ _ _ Hg). cbn beta iota.
    rewrite (bind_done _ _ _ _ _ Hu). cbn beta iota.
    rewrite (bind_done _ _ _ _ _ Ho5). reflexivity.
  - rewrite Ht5, Ht4, Ht3, Ht2, Ht1. reflexivity.
  - apply new_events_app. rewrite Htr5, Htr4, Htr3, Htr2, Htr1.
    rewrite <- !app_assoc. reflexivity.
Qed.

(** X13: allocate, then close.  On a kernel that serves every call, where
    "/dev/ptmx" is a master whose reply names an existing device,
    [OpenPTY] returns a pair and [Close] on that pair returns nil; the
    slave is closed first, then the master, and afterwards neither
    descriptor is open. *)
Theorem OpenPTY_then_Close errno_text m info pre sl s :
  faults (os s) = [] ->
  devs (os s) !! "/dev/ptmx"%string = Some m ->
  n_pty m = Some info ->
  reply_names (pty_name info) pre ->
  devs (os s) !! string_of_list_byte pre = Some sl ->
  exists p s1 s2,
    OpenPTY s = (Done (Some p, None), s1) /\
    Close errno_text (Some p) s1 = (Done None, s2) /\
    new_events s1 s2 =
      [ev_ok (SysClose (next_fd (os s) + 1)); ev_ok (SysClose (next_fd (os s)))] /\
    fdtab (os s2) !! next_fd (os s) = None /\
    fdtab (os s2) !! (next_fd (os s) + 1) = None.
Proof.
  intros Hf Hd Hp Hnm Hsl.
  destruct (OpenPTY_ready m info pre sl s Hf Hd Hp Hnm Hsl) as (s1 & Ho & Hf1 & Ht1 & _).
  set (fd := next_fd (os s)) in *.
  set (hm := mkfile fd "/dev/ptmx") in *.
  set (hs := mkfile (fd + 1) (string_of_list_byte pre)) in *.
  assert (Hls : fdtab (os s1) !! file_fd hs = Some sl)
    by (rewrite Ht1; apply lookup_insert_eq).
  destruct (File_Close_ready hs sl s1 Hf1 Hls) as (s2 & Hc2 & Hf2 & Ht2 & Htr2).
  assert (Hlm : fdtab (os s2) !! file_fd hm = Some m).
  { rewrite Ht2, Ht1. simpl.
    rewrite lookup_delete_ne, lookup_insert_ne, lookup_insert_eq by lia. reflexivity. }
  destruct (File_Close_ready hm m s2 Hf2 Hlm) as (s3 & Hc3 & Hf3 & Ht3 & Htr3).
  exists (mkPTY (Some hm) (Some hs)), s1, s3.
  split; [exact Ho|]. split; [|split; [|split]].
  - unfold Close. simpl Slave. simpl Master. cbv zeta.
    rewrite (bind_done _ _ _ _ _ Hc2). rewrite (bind_done _ _ _ _ _ Hc3). reflexivity.
  - apply new_events_app. rewrite Htr3, Htr2, <- app_assoc. reflexivity.
  - rewrite Ht3. apply lookup_delete_eq.
  - rewrite Ht3, Ht2. simpl. rewrite lookup_delete_ne by lia. apply lookup_delete_eq.
Qed.

Lemma OpenPTY_then_Close_witness :
  exists p s1 s2,
    OpenPTY (mkState (sample_devs []) []) = (Done (Some p, None), s1) /\
    Close (fun _ => "E"%string) (Some p) s1 = (Done None, s2) /\
    new_events s1 s2 =
      [ev_ok (SysClose (next_fd (os (mkState (sample_devs []) [])) + 1));
       ev_ok (SysClose (next_fd (os (mkState (sample_devs []) []))))] /\
    fdtab (os s2) !! next_fd (os (mkState (sample_devs []) [])) = None /\
    fdtab (os s2) !! (next_fd (os (mkState (sample_devs []) [])) + 1) = None.
Proof.
  apply (OpenPTY_then_Close (fun _ => "E"%string) sample_ptmx_node
           (mkPtyInfo 7 (list_byte_of_string "/dev/ttys007"))
           (list_byte_of_string "/dev/ttys007")
           (mkNode (Some sample_tio) None [] []) (mkState (sample_devs []) [])).
  - reflexivity.
  - vm_compute. reflexivity.
  - reflexivity.
  - split; [repeat constructor|]. split; [vm_compute; lia|]. left. reflexivity.
  - vm_compute. reflexivity.
Defined.

(** X14: allocate, then ask for the number.  On the pair [OpenPTY]
    returns under the same conditions, [PTSNumber] returns the low 32
    bits of the index the kernel holds for the master, and [PTSName]
    returns "/dev/pts/" followed by that number in decimal, whatever name
    the slave was opened under. *)
Theorem OpenPTY_then_PTSName m info pre sl s :
  faults (os s) = [] ->
  devs (os s) !! "/dev/ptmx"%string = Some m ->
  n_pty m = Some info ->
  reply_names (pty_name info) pre ->
  devs (os s) !! string_of_list_byte pre = Some sl ->
  exists p s1 s2,
    OpenPTY s = (Done (Some p, None), s1) /\
    PTSNumber (Some p) s1 = (Done (low32 (pty_index info), None), s2) /\
    PTSName (Some p) s1 =
      (Done ("/dev/pts/" +:+ Itoa (low32 (pty_index info)), None), s2) /\
    fdtab (os s2) = fdtab (os s1).
Proof.
  intros Hf Hd Hp Hnm Hsl.
  destruct (OpenPTY_ready m info pre sl s Hf Hd Hp Hnm Hsl) as (s1 & Ho & Hf1 & Ht1 & _).
  set (fd := next_fd (os s)) in *.
  assert (Hr1 : pty_ready fd info (os s1)).
  { split; [exact Hf1|]. exists m.
    rewrite Ht1, lookup_insert_ne, lookup_insert_eq by lia. auto. }
  destruct (pty_ioctl_ready fd info TIOCGPTN (ArgUint 0) _ (os s1) Hr1 (gptn_node info))
    as (w' & Hk & _ & Hfd & _).
  assert (Hnum : PTSNumber (Some (mkPTY (Some (mkfile fd "/dev/ptmx"))
                                        (Some (mkfile (fd + 1) (string_of_list_byte pre)))))
                   s1 = (Done (low32 (pty_index info), None), set_os w' s1)).
  { unfold PTSNumber. cbv zeta. simpl File_Fd.
    rewrite (bind_done _ _ _ _ _ (syscall_run _ _ _ _ Hk)). reflexivity. }
  eexists; exists s1, (set_os w' s1).
  split; [exact Ho|]. split; [exact Hnum|]. split; [|exact Hfd].
  unfold PTSName. rewrite (bind_done _ _ _ _ _ Hnum). cbn beta iota.
  rewrite int_of_uint_small by (pose proof (low32_range (pty_index info)); lia).
  reflexivity.
Qed.

Lemma OpenPTY_then_PTSName_witness :
  exists p s1 s2,
    OpenPTY (mkState (sample_devs []) []) = (Done (Some p, None), s1) /\
    PTSNumber (Some p) s1 =
      (Done (low32 (pty_index (mkPtyInfo 7 (list_byte_of_string "/dev/ttys007"))), None),
       s2) /\
    PTSName (Some p) s1 =
      (Done ("/dev/pts/" +:+
             Itoa (low32 (pty_index (mkPtyInfo 7 (list_byte_of_string "/dev/ttys007")))),
             None), s2) /\
    fdtab (os s2) = fdtab (os s1).
Proof.
  apply (OpenPTY_then_PTSName sample_ptmx_node
           (mkPtyInfo 7 (list_byte_of_string "/dev/ttys007"))
           (list_byte_of_string "/dev/ttys007")
           (mkNode (Some sample_tio) None [] []) (mkState (sample_devs []) [])).
  - reflexivity.
  - vm_compute. reflexivity.
  - reflexivity.
  - split; [repeat constructor|]. split; [vm_compute; lia|]. left. reflexivity.
  - vm_compute. reflexivity.
Defined.

Lemma bind_ret {A B : Type} (a : A) (k : A -> Go B) (s : State) :
  bind (ret a) k s = k a s.
Proof. reflexivity. Qed.

(** A close that returns nil reached the kernel once, found the
    descriptor open and left it closed; what was closed before stays
    closed. *)
Lemma File_Close_nil h s s1 :
  File_Close h s = (Done None, s1) ->
  fdtab (os s1) !! file_fd h = None /\
  (forall fd, fdtab (os s) !! fd = None -> fdtab (os s1) !! fd = None) /\
  new_events s s1 = [mkEvent (SysClose (file_fd h)) 0].
Proof.
  destruct (File_Close_cases h s) as [[_ H]|(n & e & s2 & _ & H & Ht & Hf)];
    rewrite H; [discriminate|].
  destruct (Z.eqb_spec e 0) as [He|He]; [|discriminate].
  intros Heq; injection Heq as Hs; subst s2 e. split; [|split].
  - rewrite Hf. apply lookup_delete_eq.
  - intros fd Hfd. rewrite Hf. apply lookup_delete_None. auto.
  - apply new_events_app. exact Ht.
Qed.

(** A close of a handle already closed returns 'file already closed'
    under the handle's name and changes nothing: no call reaches the
    kernel. *)
Lemma File_Close_closed h s :
  fdtab (os s) !! file_fd h = None ->
  File_Close h s = (Done (Some (PathError "close" (file_name h) ErrClosed)), s).
Proof. intros Hn. unfold File_Close. rewrite Hn. reflexivity. Qed.

(** X15: closing twice.  After a [Close] that returned nil, both handles
    of the pair are closed, and a second [Close] on the same pair makes
    no call to the kernel and changes nothing: each side reports
    'file already closed' under its name, and the one error returned
    names both sides, the slave first. *)
Theorem Close_twice errno_text q s s1 :
  Close errno_text (Some q) s = (Done None, s1) ->
  exists hs hm,
    Slave q = Some hs /\ Master q = Some hm /\
    new_events s s1 =
      [mkEvent (SysClose (file_fd hs)) 0; mkEvent (SysClose (file_fd hm)) 0] /\
    Close errno_text (Some q) s1 =
      (Done (Some (errorString
                     ("Slave: " +:+ ("close " +:+ file_name hs +:+ ": file already closed")
                      +:+ " " +:+
                      "Master: " +:+ ("close " +:+ file_name hm +:+ ": file already closed")))),
       s1).
Proof.
  destruct q as [[hm|] [hs|]]; unfold Close; simpl Slave; simpl Master; cbv zeta.
  - destruct (File_Close_total hs s) as (r1 & sa & Hc1).
    rewrite (bind_done _ _ _ _ _ Hc1).
    destruct (File_Close_total hm sa) as (r2 & sb & Hc2).
    rewrite (bind_done _ _ _ _ _ Hc2).
    destruct r1 as [e1|]; [destruct r2; discriminate|].
    destruct r2 as [e2|]; [discriminate|].
    simpl. intros H; injection H as Hs; subst sb.
    destruct (File_Close_nil _ _ _ Hc1) as (Hz1 & _ & Hev1).
    destruct (File_Close_nil _ _ _ Hc2) as (Hz2 & Hk2 & Hev2).
    exists hs, hm. split; [reflexivity|]. split; [reflexivity|]. split.
    + unfold new_events in *.
      assert (Ha : trace (os sa) = trace (os s) ++ [mkEvent (SysClose (file_fd hs)) 0]).
      { destruct (File_Close_cases hs s) as [[_ H]|(n & e & s2 & _ & H & Ht & _)];
          rewrite H in Hc1; [discriminate|].
        destruct (Z.eqb_spec e 0) as [He|He]; [|discriminate].
        injection Hc1 as Hs; subst s2 e. exact Ht. }
      assert (Hb : trace (os s1) = trace (os sa) ++ [mkEvent (SysClose (file_fd hm)) 0]).
      { destruct (File_Close_cases hm sa) as [[_ H]|(n & e & s2 & _ & H & Ht & _)];
          rewrite H in Hc2; [discriminate|].
        destruct (Z.eqb_spec e 0) as [He|He]; [|discriminate].
        injection Hc2 as Hs; subst s2 e. exact Ht. }
      rewrite Hb, Ha, <- app_assoc. rewrite drop_app_length. reflexivity.
    + rewrite (bind_done _ _ _ _ _ (File_Close_closed hs s1 (Hk2 _ Hz1))).
      rewrite (bind_done _ _ _ _ _ (File_Close_closed hm s1 Hz2)).
      reflexivity.
  - destruct (File_Close_total hm s) as (r2 & sb & Hc2).
    rewrite (bind_ret (Some (errorString "Slave FD nil"))), (bind_done _ _ _ _ _ Hc2).
    destruct r2; discriminate.
  - destruct (File_Close_total hs s) as (r1 & sa & Hc1).
    rewrite (bind_done _ _ _ _ _ Hc1), (bind_ret (Some (errorString "Master FD nil"))).
    destruct r1; discriminate.
  - rewrite (bind_ret (Some (errorString "Slave FD nil"))),
            (bind_ret (Some (errorString "Master FD nil"))).
    discriminate.
Qed.

Lemma Close_twice_witness :
  exists hs hm,
    Slave sample_pair = Some hs /\ Master sample_pair = Some hm /\
    new_events (mkState sample_both_open [])
      (snd (Close (fun _ => "E"%string) (Some sample_pair)
              (mkState sample_both_open []))) =
      [mkEvent (SysClose (file_fd hs)) 0; mkEvent (SysClose (file_fd hm)) 0] /\
    Close (fun _ => "E"%string) (Some sample_pair)
      (snd (Close (fun _ => "E"%string) (Some sample_pair)
              (mkState sample_both_open []))) =
      (Done (Some (errorString
                     ("Slave: " +:+ ("close " +:+ file_name hs +:+ ": file already closed")
                      +:+ " " +:+
                      "Master: " +:+ ("close " +:+ file_name hm +:+ ": file already closed")))),
       snd (Close (fun _ => "E"%string) (Some sample_pair)
              (mkState sample_both_open []))).
Proof.
  apply (Close_twice (fun _ => "E"%string) sample_pair (mkState sample_both_open [])).
  vm_compute. reflexivity.
Defined.

(** ** Input that ends before a terminator *)

Lemma read_ready_eof fd k w :
  tty_ready fd k [] w ->
  exists w', sys_read1 fd w = ((0, None), w') /\ tty_ready fd k [] w'.
Proof.
  intros [Hf (n & Hn & Hk & Hi)].
  destruct w as [tab dv nfd fl tr]; simpl in *; subst fl.
  unfold sys_read1, pop_fault; simpl. rewrite Hn, Hi.
  eexists; split; [reflexivity|]. split; [reflexivity|]. exists n. simpl. auto.
Qed.

Lemma File_Read1_eof fd name k s :
  tty_ready fd k [] (os s) ->
  exists s', File_Read1 (Some (mkfile fd name)) s = (Done (None, Some EOF), s') /\
             tty_ready fd k [] (os s').
Proof.
  intros H. destruct (read_ready_eof _ _ _ H) as (w' & Hr & Hw).
  exists (set_os w' s). split; [|exact Hw].
  unfold File_Read1. simpl.
  rewrite (bind_done _ _ _ _ _ (retry_once _ _ _ _ _ Hr ltac:(discriminate))). reflexivity.
Qed.

(** One iteration whose read fails, as the loop runs it. *)
Lemma GetPass_loop_error_step (n i : nat) (f : File) (pbuf : slice) (b0 : byte)
    (s s1 : State) (e : error) :
  File_Read1 f s = (Done (None, Some e), s1) ->
  (i < len pbuf)%nat -> (len pbuf <= cap pbuf)%nat -> (cap pbuf <= length (mem s))%nat ->
  GetPass_loop (S n) f pbuf i b0 s =
    GetPass_loop n f pbuf (i + 1) x00
      (set_mem (replicate (i + 1) x00 ++ drop (i + 1) (mem s)) s1).
Proof.
  intros Hrd Hi Hlc Hcm.
  assert (Hm1 := File_Read1_mem _ _ _ _ Hrd).
  set (m2 := replicate (i + 1) x00 ++ drop (i + 1) (mem s)).
  assert (Hclr : clearbuf (mkslice (i + 1) (cap pbuf)) s1 = (Done tt, set_mem m2 s1)).
  { unfold m2. rewrite <- Hm1. apply clearbuf_run. simpl. rewrite Hm1. lia. }
  assert (Hins : <[i := x00]> m2 = m2).
  { apply list_insert_id. unfold m2.
    rewrite lookup_app_l by (rewrite length_replicate; lia).
    apply lookup_replicate_2. lia. }
  cbn [GetPass_loop]. rewrite (bind_done _ _ _ _ _ Hrd). cbn beta iota.
  rewrite (bind_done _ _ _ (set_mem m2 s1) x00).
  2: { rewrite (bind_done _ _ _ _ _ (reslice_run pbuf (i + 1) s1 ltac:(lia))).
       rewrite (bind_done _ _ _ _ _ Hclr). reflexivity. }
  change (is_terminator x00) with false. cbn iota.
  rewrite (bind_done _ _ _ _ _ (store_run pbuf i x00 _ Hi)).
  simpl. rewrite Hins. reflexivity.
Qed.

(** At end of input every remaining iteration fails and zeroes; the loop
    runs to the end of the buffer. *)
Lemma GetPass_loop_eof fd name k pbuf (n : nat) :
  forall (i : nat) (s : State),
  tty_ready fd k [] (os s) ->
  (i + S n <= len pbuf)%nat -> (len pbuf <= cap pbuf)%nat ->
  (cap pbuf <= length (mem s))%nat ->
  exists s',
    GetPass_loop (S n) (Some (mkfile fd name)) pbuf i x00 s =
      GetPass_loop 0 (Some (mkfile fd name)) pbuf (i + S n) x00 s' /\
    tty_ready fd k [] (os s') /\
    mem s' = replicate (i + S n) x00 ++ drop (i + S n) (mem s).
Proof.
  induction n as [|n IH]; intros i s Hr Hi Hlc Hcm.
  - destruct (File_Read1_eof fd name k s Hr) as (s1 & Hrd & Hr1).
    eexists. split; [|split].
    + apply (GetPass_loop_error_step 0 i _ pbuf x00 s s1 EOF Hrd); lia.
    + exact Hr1.
    + reflexivity.
  - destruct (File_Read1_eof fd name k s Hr) as (s1 & Hrd & Hr1).
    set (s2 := set_mem (replicate (i + 1) x00 ++ drop (i + 1) (mem s)) s1).
    assert (Hlen2 : length (mem s2) = length (mem s)).
    { simpl. rewrite length_app, length_replicate, length_drop. lia. }
    destruct (IH (i + 1)%nat s2 Hr1 ltac:(lia) Hlc ltac:(lia)) as (s' & Hl & Hr' & Hm').
    exists s'. split; [|split; [exact Hr'|]].
    + rewrite (GetPass_loop_error_step (S n) i _ pbuf x00 s s1 EOF Hrd) by lia.
      fold s2. rewrite Hl. replace (i + 1 + S n)%nat with (i + S (S n))%nat by lia.
      reflexivity.
    + rewrite Hm'. simpl mem.
      rewrite drop_app_ge by (rewrite length_replicate; lia).
      rewrite length_replicate, drop_drop.
      replace (i + 1 + (i + 1 + S n - (i + 1)))%nat with (i + S (S n))%nat by lia.
      replace (i + 1 + S n)%nat with (i + S (S n))%nat by lia. reflexivity.
Qed.

(** X16: input that ends before a terminator.  When the pending input
    [pw] has no terminator, is shorter than the buffer, and is followed by
    end of file, [GetPass] does not report the end of file: every
    remaining read fails and is passed over, the bytes read are wiped, and
    the call ends as for an exhausted buffer.  With no capacity behind the
    length it panics; with capacity to spare it returns the exhaustion
    error, the buffer and the byte behind it zeroed. *)
Theorem GetPass_eof nbCc ECHO prompt fd name k pw vis spare w :
  tty_ready fd k pw w ->
  no_terminator pw ->
  (length pw < length vis)%nat ->
  let run :=
    GetPass nbCc ECHO prompt (Some (mkfile fd name))
      (mkslice (length vis) (length (vis ++ spare))) (mkState w (vis ++ spare)) in
  (spare = [] -> fst run = Panic) /\
  (forall c sp, spare = c :: sp ->
     fst run = Done (None, Some (errorString "ran out of bufferspace")) /\
     mem (snd run) = replicate (length vis + 1) x00 ++ sp).
Proof.
  intros Hr Hnt Hlen run.
  set (pbuf := mkslice (length vis) (length (vis ++ spare))) in *.
  set (f := Some (mkfile fd name)) in *.
  set (s := mkState w (vis ++ spare)) in *.
  destruct (Attr_ready nbCc fd name k _ s Hr) as (s1 & Ha & Hr1 & Hm1 & _).
  set (noecho := with_Lflag (Z.ldiff (Lflag (masked k)) ECHO) (masked k)).
  destruct (Termios_Set_ready fd name _ _ noecho s1 Hr1) as (s2 & Hs & Hr2 & Hm2 & _).
  destruct (File_Write_ready fd name _ _ (list_byte_of_string prompt) s2 Hr2)
    as (s3 & Hw & Hr3 & Hm3 & _).
  assert (Hmem3 : mem s3 = vis ++ spare) by (rewrite Hm3, Hm2, Hm1; reflexivity).
  rewrite <- (app_nil_r pw) in Hr3.
  assert (H1 : (length pw <= length vis)%nat) by lia.
  assert (H2 : (0 + length pw <= len pbuf)%nat) by (simpl; lia).
  assert (H3 : (len pbuf <= length (mem s3))%nat)
    by (rewrite Hmem3, length_app; simpl; lia).
  destruct (GetPass_loop_stores pw (length vis) 0 s3 fd name noecho [] pbuf
              Hnt H1 H2 H3 Hr3) as (s4 & Hl & Hr4 & Hm4 & _).
  assert (Hlen4 : length (mem s4) = length (vis ++ spare)).
  { rewrite Hm4, Hmem3. unfold splice. simpl.
    rewrite length_app, length_drop, !length_app. lia. }
  destruct (length vis - length pw)%nat as [|n] eqn:En; [lia|].
  destruct (GetPass_loop_eof fd name noecho pbuf n (0 + length pw) s4 Hr4)
    as (s5 & Hl5 & Hr5 & Hm5).
  { simpl. lia. } { simpl. rewrite length_app. lia. } { simpl. lia. }
  replace (0 + length pw + S n)%nat with (length vis) in Hl5, Hm5 by lia.
  assert (Hmem5 : mem s5 = replicate (length vis) x00 ++ spare).
  { rewrite Hm5, Hm4, Hmem3. unfold splice. simpl. f_equal.
    rewrite drop_app_ge by lia. rewrite drop_drop.
    replace (length pw + (length vis - length pw))%nat with (length vis) by lia.
    apply drop_app_length. }
  assert (Hrun : run = defer (Termios_Set (masked k) f)
                         (GetPass_loop 0 f pbuf (length vis) x00) s5).
  { unfold run, GetPass. rewrite (bind_done _ _ _ _ _ Ha). cbn beta iota.
    fold noecho.
    rewrite (defer_bind_done _ _ _ _ _ _ Hs). cbn beta iota.
    rewrite (defer_bind_done _ _ _ _ _ _ Hw). cbn beta iota.
    rewrite Nat.sub_0_r. change (len pbuf) with (length vis).
    unfold defer, f. rewrite Hl, Hl5. reflexivity. }
  split.
  - intros Hsp. rewrite Hrun.
    destruct (Termios_Set_ready fd name noecho [] (masked k) s5 Hr5) as (s6 & Hs6 & _).
    unfold defer. cbn [GetPass_loop].
    rewrite (bind_panic _ _ s5 s5).
    2: { apply reslice_panics. simpl. rewrite Hsp, app_nil_r. lia. }
    fold f in Hs6. rewrite Hs6. reflexivity.
  - intros c sp Hsp.
    assert (Hcap : (length vis + 1 <= cap pbuf)%nat)
      by (simpl; rewrite Hsp, length_app; simpl; lia).
    set (s6 := set_mem (replicate (length vis + 1) x00 ++
                        drop (length vis + 1) (mem s5)) s5).
    assert (Hloop : GetPass_loop 0 f pbuf (length vis) x00 s5 =
                    (Done (None, Some (errorString "ran out of bufferspace")), s6)).
    { cbn [GetPass_loop].
      rewrite (bind_done _ _ _ _ _ (reslice_run pbuf _ s5 Hcap)).
      rewrite (bind_done _ _ _ s6 tt); [reflexivity|].
      apply clearbuf_run. simpl. rewrite Hmem5, Hsp, length_app, length_replicate.
      simpl. lia. }
    destruct (Termios_Set_ready fd name noecho [] (masked k) s6 Hr5)
      as (s7 & Hs7 & _ & Hm7 & _).
    fold f in Hs7. rewrite Hrun. unfold defer. rewrite Hloop, Hs7. simpl.
    split; [reflexivity|]. rewrite Hm7. unfold s6. simpl. rewrite Hmem5, Hsp. f_equal.
    rewrite drop_app_ge by (rewrite length_replicate; lia).
    rewrite length_replicate.
    replace (length vis + 1 - length vis)%nat with 1%nat by lia. reflexivity.
Qed.

Lemma GetPass_eof_witness :
  let run :=
    GetPass 20 8 "Password: " (Some (mkfile 3 "/dev/tty"))
      (mkslice (length (replicate 4 x01)) (length (replicate 4 x01 ++ [x02])))
      (mkState (sample_tty (list_byte_of_string "ab") []) (replicate 4 x01 ++ [x02])) in
  ([x02] = [] -> fst run = Panic) /\
  (forall c sp, [x02] = c :: sp ->
     fst run = Done (None, Some (errorString "ran out of bufferspace")) /\
     mem (snd run) = replicate (length (replicate 4 x01) + 1) x00 ++ sp).
Proof.
  apply (GetPass_eof 20 8 "Password: " 3 "/dev/tty" sample_tio
           (list_byte_of_string "ab") (replicate 4 x01) [x02]).
  - split; [reflexivity|]. eexists. split; [vm_compute; reflexivity|].
    split; reflexivity.
  - repeat constructor.
  - simpl. lia.
Defined.

(** ** Allocation without the master device *)

(** X17: when there is no "/dev/ptmx", [OpenPTY] fails at its first step
    with the path error of that open, whatever the kernel would do next.
    The open is made again as long as it is interrupted; these opens of
    "/dev/ptmx" are the only kernel calls, the last one carries the
    error returned, and no descriptor is opened. *)
Theorem OpenPTY_no_ptmx errno_text s :
  devs (os s) !! "/dev/ptmx"%string = None ->
  exists k e s',
    OpenPTY s = (Done (None, Some (PathError "open" "/dev/ptmx" (Errno e))), s') /\
    e <> 0 /\ e <> EINTR /\
    Error errno_text (PathError "open" "/dev/ptmx" (Errno e)) =
      "open /dev/ptmx: " +:+ errno_text e /\
    new_events s s' =
      replicate k (mkEvent (SysOpen "/dev/ptmx") EINTR) ++
      [mkEvent (SysOpen "/dev/ptmx") e] /\
    fdtab (os s') = fdtab (os s).
Proof.
  intros Hd.
  destruct (os_OpenFile_cases "/dev/ptmx" s)
    as (k & e & s1 & Hi & [(He & Ho & Hf)|(_ & _ & _ & n & Hn & _)] & Ht).
  - exists k, e, s1.
    split; [|split; [exact He|split; [exact Hi|split; [reflexivity|split]]]].
    + unfold OpenPTY. rewrite (bind_done _ _ _ _ _ Ho). reflexivity.
    + apply new_events_app. exact Ht.
    + exact Hf.
  - rewrite Hd in Hn. discriminate Hn.
Qed.

Lemma OpenPTY_no_ptmx_witness :
  exists k e s',
    OpenPTY (mkState (sample_plain [4]) []) =
      (Done (None, Some (PathError "open" "/dev/ptmx" (Errno e))), s') /\
    e <> 0 /\ e <> EINTR /\
    Error (fun _ => "no such file or directory"%string)
      (PathError "open" "/dev/ptmx" (Errno e)) =
      "open /dev/ptmx: " +:+ "no such file or directory" /\
    new_events (mkState (sample_plain [4]) []) s' =
      replicate k (mkEvent (SysOpen "/dev/ptmx") EINTR) ++
      [mkEvent (SysOpen "/dev/ptmx") e] /\
    fdtab (os s') = fdtab (os (mkState (sample_plain [4]) [])).
Proof.
  apply (OpenPTY_no_ptmx (fun _ => "no such file or directory"%string)
           (mkState (sample_plain [4]) [])).
  vm_compute. reflexivity.
Defined.
